(** * Breathing-App: the session store, the sphere driver, the pattern-name
    lookups and the persisted session list.

    JavaScript numbers are modelled with exact rational arithmetic: the
    special values [NaN] and the two infinities are kept, rounding to
    binary64 and the sign of zero are abstracted away (a zero divisor is
    read as [+0]).  [Date.now()] is an integer number of milliseconds. *)

From Stdlib Require Import ZArith QArith Qround Lqa Lia Bool List Ascii String.
From stdpp Require Import gmap strings.

Set Warnings "-register-all".

Local Open Scope Z_scope.
Local Open Scope Q_scope.

(** ** JavaScript numbers *)

Inductive number : Type :=
| NaN
| Infinity (negative : bool)
| Fin (q : Q).

Module Num.

Definition Qltb (a b : Q) : bool := negb (Qle_bool b a).

Definition neg (x : number) : number :=
  match x with
  | NaN => NaN
  | Infinity s => Infinity (negb s)
  | Fin q => Fin (- q)
  end.

(** [x + y] *)
Definition add (x y : number) : number :=
  match x, y with
  | NaN, _ | _, NaN => NaN
  | Infinity a, Infinity b => if Bool.eqb a b then Infinity a else NaN
  | Infinity a, Fin _ => Infinity a
  | Fin _, Infinity b => Infinity b
  | Fin a, Fin b => Fin (a + b)
  end.

(** [x - y] *)
Definition sub (x y : number) : number := add x (neg y).

(** [x * y] *)
Definition mul (x y : number) : number :=
  match x, y with
  | NaN, _ | _, NaN => NaN
  | Infinity a, Infinity b => Infinity (xorb a b)
  | Infinity a, Fin q | Fin q, Infinity a =>
      match q ?= 0 with
      | Eq => NaN
      | Gt => Infinity a
      | Lt => Infinity (negb a)
      end
  | Fin a, Fin b => Fin (a * b)
  end.

(** [x / y]; division by zero gives an infinity, [0 / 0] gives [NaN]. *)
Definition div (x y : number) : number :=
  match x, y with
  | NaN, _ | _, NaN => NaN
  | Infinity _, Infinity _ => NaN
  | Infinity a, Fin q => if Qltb q 0 then Infinity (negb a) else Infinity a
  | Fin _, Infinity _ => Fin 0
  | Fin a, Fin b =>
      if Qeq_bool b 0 then
        match a ?= 0 with
        | Eq => NaN
        | Gt => Infinity false
        | Lt => Infinity true
        end
      else Fin (a / b)
  end.

(** Rounding toward zero. *)
Definition trunc (q : Q) : Z :=
  if Qltb q 0 then Qceiling q else Qfloor q.

(** [x % y]: the remainder has the sign of the dividend; a zero divisor or
    an infinite dividend gives [NaN]. *)
Definition rem (x y : number) : number :=
  match x, y with
  | NaN, _ | _, NaN => NaN
  | Infinity _, _ => NaN
  | Fin a, Infinity _ => Fin a
  | Fin a, Fin b =>
      if Qeq_bool b 0 then NaN
      else Fin (a - b * inject_Z (trunc (a / b)))
  end.

(** [x < y]; false as soon as one side is [NaN]. *)
Definition lt (x y : number) : bool :=
  match x, y with
  | NaN, _ | _, NaN => false
  | Infinity a, Infinity b => a && negb b
  | Infinity a, Fin _ => a
  | Fin _, Infinity b => negb b
  | Fin a, Fin b => Qltb a b
  end.

(** [x === y] on numbers. *)
Definition strict_eq (x y : number) : bool :=
  match x, y with
  | Fin a, Fin b => Qeq_bool a b
  | Infinity a, Infinity b => Bool.eqb a b
  | _, _ => false
  end.

(** Equality of numbers as values: rationals are compared by [Qeq]. *)
Definition eqv (x y : number) : Prop :=
  match x, y with
  | NaN, NaN => True
  | Infinity a, Infinity b => a = b
  | Fin a, Fin b => a == b
  | _, _ => False
  end.

Definition of_Z (z : Z) : number := Fin (inject_Z z).

End Num.

(** [Math.min(x, y)] and [Math.max(x, y)]: [NaN] is contagious. *)
Definition Math_min (x y : number) : number :=
  match x, y with
  | NaN, _ | _, NaN => NaN
  | _, _ => if Num.lt y x then y else x
  end.

Definition Math_max (x y : number) : number :=
  match x, y with
  | NaN, _ | _, NaN => NaN
  | _, _ => if Num.lt x y then y else x
  end.

Declare Scope num_scope.
Delimit Scope num_scope with num.
Bind Scope num_scope with number.
Infix "+" := Num.add : num_scope.
Infix "-" := Num.sub : num_scope.
Infix "*" := Num.mul : num_scope.
Infix "/" := Num.div : num_scope.
Infix "%%" := Num.rem (at level 40, left associativity) : num_scope.
Infix "<?" := Num.lt : num_scope.
Infix "===" := Num.strict_eq (at level 70, no associativity) : num_scope.
Infix "=n=" := Num.eqv (at level 70, no associativity).

(** ** The store (store/breathingStore) *)

Inductive Phase : Type := Inhale | Hold | Exhale | Rest.

Record Theme : Type := mkTheme {
  primary : string;
  secondary : string;
  background : string
}.

Record BreathingState : Type := mkState {
  inhaleTime : number;
  holdTime : number;
  exhaleTime : number;
  isBreathing : bool;
  currentPhase : Phase;
  elapsedTime : number;
  theme : Theme
}.

(** The state the store is created with: pattern 4-4-6, stopped, at rest. *)
Definition useBreathingStore : BreathingState :=
  {| inhaleTime := Fin 4;
     holdTime := Fin 4;
     exhaleTime := Fin 6;
     isBreathing := false;
     currentPhase := Rest;
     elapsedTime := Fin 0;
     theme := {| primary := "#64b5f6";
                 secondary := "#80cbc4";
                 background := "#e0f7fa" |} |}.

Definition setBreathingPattern (inhale hold exhale : number)
    (s : BreathingState) : BreathingState :=
  {| inhaleTime := inhale;
     holdTime := hold;
     exhaleTime := exhale;
     isBreathing := isBreathing s;
     currentPhase := Inhale;
     elapsedTime := elapsedTime s;
     theme := theme s |}.

(** [setTheme] also pushes the primary colour to the document's scrollbar
    variables; that write lands in the DOM, not in the store. *)
Definition setTheme (t : Theme) (s : BreathingState) : BreathingState :=
  {| inhaleTime := inhaleTime s;
     holdTime := holdTime s;
     exhaleTime := exhaleTime s;
     isBreathing := isBreathing s;
     currentPhase := currentPhase s;
     elapsedTime := elapsedTime s;
     theme := t |}.

Definition startBreathing (s : BreathingState) : BreathingState :=
  {| inhaleTime := inhaleTime s;
     holdTime := holdTime s;
     exhaleTime := exhaleTime s;
     isBreathing := true;
     currentPhase := Inhale;
     elapsedTime := elapsedTime s;
     theme := theme s |}.

Definition stopBreathing (s : BreathingState) : BreathingState :=
  {| inhaleTime := inhaleTime s;
     holdTime := holdTime s;
     exhaleTime := exhaleTime s;
     isBreathing := false;
     currentPhase := Rest;
     elapsedTime := elapsedTime s;
     theme := theme s |}.

Definition setCurrentPhase (phase : Phase) (s : BreathingState)
    : BreathingState :=
  {| inhaleTime := inhaleTime s;
     holdTime := holdTime s;
     exhaleTime := exhaleTime s;
     isBreathing := isBreathing s;
     currentPhase := phase;
     elapsedTime := elapsedTime s;
     theme := theme s |}.

Definition setInhaleTime (time : number) (s : BreathingState)
    : BreathingState :=
  {| inhaleTime := time;
     holdTime := holdTime s;
     exhaleTime := exhaleTime s;
     isBreathing := isBreathing s;
     currentPhase := currentPhase s;
     elapsedTime := elapsedTime s;
     theme := theme s |}.

Definition setHoldTime (time : number) (s : BreathingState)
    : BreathingState :=
  {| inhaleTime := inhaleTime s;
     holdTime := time;
     exhaleTime := exhaleTime s;
     isBreathing := isBreathing s;
     currentPhase := currentPhase s;
     elapsedTime := elapsedTime s;
     theme := theme s |}.

Definition setExhaleTime (time : number) (s : BreathingState)
    : BreathingState :=
  {| inhaleTime := inhaleTime s;
     holdTime := holdTime s;
     exhaleTime := time;
     isBreathing := isBreathing s;
     currentPhase := currentPhase s;
     elapsedTime := elapsedTime s;
     theme := theme s |}.

Definition setElapsedTime (time : number) (s : BreathingState)
    : BreathingState :=
  {| inhaleTime := inhaleTime s;
     holdTime := holdTime s;
     exhaleTime := exhaleTime s;
     isBreathing := isBreathing s;
     currentPhase := currentPhase s;
     elapsedTime := time;
     theme := theme s |}.

(** ** The sphere (components/BreathingSphere) *)

(** What the driver writes on a mesh: its uniform scale factor and its
    rotation about the y axis. *)
Record Mesh : Type := mkMesh {
  meshScale : number;
  rotationY : number
}.

(** The refs and the local state of the component.  A ref is [None] while
    its mesh is not mounted. *)
Record BreathingSphere : Type := mkSphere {
  sphereRef : option Mesh;
  outerSphereRef : option Mesh;
  startTime : Z;
  isResetting : bool;
  resetStartTime : Z;
  isMobile : bool;
  scale : number
}.

(** [SPHERE_CONFIG.outer.scale] *)
Definition outer_scale : number := Fin (12 # 10).

(** [THREE.MathUtils.lerp(x, y, t)], which three.js computes as
    [(1 - t) * x + t * y]. *)
Definition lerp (x y t : number) : number :=
  ((Fin 1 - t) * x + t * y)%num.

Definition totalCycleTime (st : BreathingState) : number :=
  (inhaleTime st + holdTime st + exhaleTime st)%num.

(** The component as first rendered: refs not attached yet. *)
Definition newSphere : BreathingSphere :=
  {| sphereRef := None;
     outerSphereRef := None;
     startTime := 0%Z;
     isResetting := false;
     resetStartTime := 0%Z;
     isMobile := false;
     scale := Fin 1 |}.

(** React attaches both meshes when the component is committed. *)
Definition attach (c : BreathingSphere) : BreathingSphere :=
  {| sphereRef := Some {| meshScale := Fin 1; rotationY := Fin 0 |};
     outerSphereRef := Some {| meshScale := Fin 1; rotationY := Fin 0 |};
     startTime := startTime c;
     isResetting := isResetting c;
     resetStartTime := resetStartTime c;
     isMobile := isMobile c;
     scale := scale c |}.

(** [checkMobile], run on mount and on every resize. *)
Definition checkMobile (innerWidth : number) (c : BreathingSphere)
    : BreathingSphere :=
  {| sphereRef := sphereRef c;
     outerSphereRef := outerSphereRef c;
     startTime := startTime c;
     isResetting := isResetting c;
     resetStartTime := resetStartTime c;
     isMobile := (innerWidth <? Fin 768)%num;
     scale := scale c |}.

(** The effect on [isBreathing]; [now] is [Date.now()]. *)
Definition isBreathingEffect (now : Z) (st : BreathingState)
    (c : BreathingSphere) : BreathingSphere :=
  if isBreathing st then
    {| sphereRef := sphereRef c;
       outerSphereRef := outerSphereRef c;
       startTime := now;
       isResetting := false;
       resetStartTime := resetStartTime c;
       isMobile := isMobile c;
       scale := scale c |}
  else
    match sphereRef c, outerSphereRef c with
    | Some _, Some _ =>
        {| sphereRef := sphereRef c;
           outerSphereRef := outerSphereRef c;
           startTime := startTime c;
           isResetting := true;
           resetStartTime := now;
           isMobile := isMobile c;
           scale := scale c |}
    | _, _ => c
    end.

(** Progress of the reset animation at [now]. *)
Definition resetProgress (now : Z) (c : BreathingSphere) : number :=
  let resetElapsed := (Num.of_Z (now - resetStartTime c) / Fin 1000)%num in
  let resetDuration := Fin (1 # 2) in
  Math_min (resetElapsed / resetDuration)%num (Fin 1).

(** Position inside the current cycle at [now]. *)
Definition cycleTime (now : Z) (st : BreathingState) (c : BreathingSphere)
    : number :=
  let elapsedTime := (Num.of_Z (now - startTime c) / Fin 1000)%num in
  (elapsedTime %% totalCycleTime st)%num.

(** The phase reported to the store and [targetScale], for a position
    [time] inside the cycle. *)
Definition breathingTarget (inhaleTime holdTime exhaleTime time : number)
    : Phase * number :=
  if (time <? inhaleTime)%num then
    let progress := (time / inhaleTime)%num in
    (Inhale, (Fin 1 + progress)%num)
  else if (time <? inhaleTime + holdTime)%num then
    (Hold, Fin 2)
  else
    let progress := ((time - (inhaleTime + holdTime)) / exhaleTime)%num in
    (Exhale, (Fin 2 - progress)%num).

Definition maxScale (c : BreathingSphere) : number :=
  if isMobile c then Fin (15 # 10) else Fin 2.

(** The frame callback; [now] is [Date.now()], [delta] the time since the
    previous frame. *)
Definition useFrame (now : Z) (delta : number) (st : BreathingState)
    (c : BreathingSphere) : BreathingState * BreathingSphere :=
  match sphereRef c, outerSphereRef c with
  | Some sphere, Some outer =>
      if isResetting c then
        let progress := resetProgress now c in
        let scale' := lerp (scale c) (Fin 1) progress in
        (st,
         {| sphereRef :=
              Some {| meshScale := scale'; rotationY := rotationY sphere |};
            outerSphereRef :=
              Some {| meshScale := (scale' * outer_scale)%num;
                      rotationY := rotationY outer |};
            startTime := startTime c;
            isResetting :=
              if (progress === Fin 1)%num then false else isResetting c;
            resetStartTime := resetStartTime c;
            isMobile := isMobile c;
            scale := scale' |})
      else if negb (isBreathing st) then (st, c)
      else
        let time := cycleTime now st c in
        let '(phase, targetScale) :=
          breathingTarget (inhaleTime st) (holdTime st) (exhaleTime st) time in
        let scale' := Math_min targetScale (maxScale c) in
        (setCurrentPhase phase st,
         {| sphereRef :=
              Some {| meshScale := scale'; rotationY := rotationY sphere |};
            outerSphereRef :=
              Some {| meshScale := (scale' * outer_scale)%num;
                      rotationY :=
                        (rotationY outer + delta * Fin (2 # 10))%num |};
            startTime := startTime c;
            isResetting := isResetting c;
            resetStartTime := resetStartTime c;
            isMobile := isMobile c;
            scale := scale' |})
  | _, _ => (st, c)
  end.

(** A run of frames, each with its [Date.now()] and its [delta]. *)
Fixpoint frames (ticks : list (Z * number)) (st : BreathingState)
    (c : BreathingSphere) : BreathingState * BreathingSphere :=
  match ticks with
  | [] => (st, c)
  | (now, delta) :: rest =>
      let '(st', c') := useFrame now delta st c in frames rest st' c'
  end.

(** The scale after each frame of a run. *)
Fixpoint scales (ticks : list (Z * number)) (st : BreathingState)
    (c : BreathingSphere) : list number :=
  match ticks with
  | [] => []
  | (now, delta) :: rest =>
      let '(st', c') := useFrame now delta st c in
      scale c' :: scales rest st' c'
  end.

(** ** The application: the store, the sphere, and what happens to them *)

Record App : Type := mkApp {
  store : BreathingState;
  sphere : BreathingSphere
}.

(** What can happen once the page is up.  The store's operations are
    taken with arbitrary arguments; [setCurrentPhase] has one caller, the
    frame callback, and is reached through [Frame] only. *)
Inductive Event : Type :=
| SetBreathingPattern (inhale hold exhale : number)
| SetTheme (t : Theme)
| StartBreathing (now : Z)
| StopBreathing (now : Z)
| SetInhaleTime (time : number)
| SetHoldTime (time : number)
| SetExhaleTime (time : number)
| SetElapsedTime (time : number)
| Frame (now : Z) (delta : number)
| Resize (innerWidth : number).

(** After a store update the sphere's effect runs again when its
    dependency [isBreathing] has changed. *)
Definition rerender (now : Z) (before after : BreathingState)
    (c : BreathingSphere) : BreathingSphere :=
  if Bool.eqb (isBreathing before) (isBreathing after) then c
  else isBreathingEffect now after c.

Definition step (e : Event) (a : App) : App :=
  match e with
  | SetBreathingPattern inhale hold exhale =>
      {| store := setBreathingPattern inhale hold exhale (store a);
         sphere := sphere a |}
  | SetTheme t => {| store := setTheme t (store a); sphere := sphere a |}
  | StartBreathing now =>
      {| store := startBreathing (store a);
         sphere := rerender now (store a) (startBreathing (store a))
                     (sphere a) |}
  | StopBreathing now =>
      {| store := stopBreathing (store a);
         sphere := rerender now (store a) (stopBreathing (store a))
                     (sphere a) |}
  | SetInhaleTime time =>
      {| store := setInhaleTime time (store a); sphere := sphere a |}
  | SetHoldTime time =>
      {| store := setHoldTime time (store a); sphere := sphere a |}
  | SetExhaleTime time =>
      {| store := setExhaleTime time (store a); sphere := sphere a |}
  | SetElapsedTime time =>
      {| store := setElapsedTime time (store a); sphere := sphere a |}
  | Frame now delta =>
      let '(st, c) := useFrame now delta (store a) (sphere a) in
      {| store := st; sphere := c |}
  | Resize innerWidth =>
      {| store := store a; sphere := checkMobile innerWidth (sphere a) |}
  end.

(** The page once mounted at [now] in a window [innerWidth] wide: both
    effects of the sphere have run once. *)
Definition mount (now : Z) (innerWidth : number) : App :=
  {| store := useBreathingStore;
     sphere := isBreathingEffect now useBreathingStore
                 (checkMobile innerWidth (attach newSphere)) |}.

Definition run (events : list Event) (a : App) : App :=
  fold_left (fun a e => step e a) events a.

Definition reachable (a : App) : Prop :=
  exists now innerWidth events, a = run events (mount now innerWidth).

(** ** JSON text, as [JSON.parse] reads it *)

Module JSON.

(** A string value is its sequence of UTF-16 code units; an object keeps
    its members in the order of the text.  A text is a [string] whose
    characters are read as code units below 256. *)
Inductive value : Type :=
| JNull
| JBool (b : bool)
| JNumber (n : number)
| JString (s : list N)
| JArray (items : list value)
| JObject (members : list (list N * value)).

Inductive token : Type :=
| TLBrace | TRBrace | TLBracket | TRBracket | TColon | TComma
| TStr (s : list N)
| TNum (q : Q)
| TTrue | TFalse | TNull.

Definition code (c : ascii) : N := N_of_ascii c.

Definition is_ws (c : ascii) : bool :=
  (code c =? 32)%N || (code c =? 9)%N || (code c =? 10)%N || (code c =? 13)%N.

Definition is_digit (c : ascii) : bool :=
  (48 <=? code c)%N && (code c <=? 57)%N.

Definition digit_val (c : ascii) : Z := (Z.of_N (code c) - 48)%Z.

Definition hex_val (c : ascii) : option N :=
  let n := code c in
  if is_digit c then Some (n - 48)%N
  else if (97 <=? n)%N && (n <=? 102)%N then Some (n - 87)%N
  else if (65 <=? n)%N && (n <=? 70)%N then Some (n - 55)%N
  else None.

(** Leading decimal digits of [cs], and what follows them. *)
Fixpoint digits (cs : list ascii) : list Z * list ascii :=
  match cs with
  | [] => ([], [])
  | c :: rest =>
      if is_digit c then
        let '(ds, rest') := digits rest in (digit_val c :: ds, rest')
      else ([], cs)
  end.

Definition decimal (ds : list Z) : Z :=
  fold_left (fun acc d => (10 * acc + d)%Z) ds 0%Z.

(** The JSON number grammar (an optional minus sign; a single zero or a
    digit string without leading zero; an optional dot followed by digits;
    an optional exponent e or E with optional sign and digits), read as an
    exact rational. *)
Definition number_of_lexeme (cs : list ascii) : option Q :=
  let '(negative, cs) :=
    match cs with
    | "-"%char :: rest => (true, rest)
    | _ => (false, cs)
    end in
  let '(int, cs) := digits cs in
  match int with
  | [] => None
  | d :: more =>
      if (d =? 0)%Z && negb (Nat.eqb (length more) 0) then None
      else
        let fraction :=
          match cs with
          | "."%char :: rest =>
              let '(fr, rest') := digits rest in
              match fr with
              | [] => None
              | _ :: _ => Some (fr, rest')
              end
          | _ => Some ([], cs)
          end in
        match fraction with
        | None => None
        | Some (frac, cs) =>
            let exponent :=
              match cs with
              | [] => Some 0%Z
              | c :: rest =>
                  if (code c =? 101)%N || (code c =? 69)%N then
                    let '(eneg, rest) :=
                      match rest with
                      | "-"%char :: r => (true, r)
                      | "+"%char :: r => (false, r)
                      | _ => (false, rest)
                      end in
                    match digits rest with
                    | ([], _) => None
                    | (ex, []) =>
                        Some (if eneg then (- decimal ex)%Z else decimal ex)
                    | (_, _ :: _) => None
                    end
                  else None
              end in
            match exponent with
            | None => None
            | Some e =>
                let q := inject_Z (decimal (int ++ frac))
                         * Qpower 10 (e - Z.of_nat (length frac)) in
                Some (if negative then - q else q)
            end
        end
  end.

(** The scanner reads one character at a time.  Characters are named by
    their codes: 34 is the double quote, 92 the backslash, 123 and 125 the
    braces, 91 and 93 the brackets, 58 the colon, 44 the comma, 45 the
    minus sign. *)
Inductive mode : Type :=
| Between
| InStr (acc : list N)
| InEsc (acc : list N)
| InHex (acc : list N) (hex : list N)
| InNum (lexeme : list ascii)
| InLit (rest : list ascii) (t : token).

Definition is_numchar (c : ascii) : bool :=
  is_digit c || (code c =? 45)%N || (code c =? 43)%N || (code c =? 46)%N
  || (code c =? 101)%N || (code c =? 69)%N.

Definition between (c : ascii) : option (list token * mode) :=
  if is_ws c then Some ([], Between)
  else if is_digit c then Some ([], InNum [c])
  else
    match code c with
    | 123%N => Some ([TLBrace], Between)
    | 125%N => Some ([TRBrace], Between)
    | 91%N => Some ([TLBracket], Between)
    | 93%N => Some ([TRBracket], Between)
    | 58%N => Some ([TColon], Between)
    | 44%N => Some ([TComma], Between)
    | 34%N => Some ([], InStr [])
    | 45%N => Some ([], InNum [c])
    | 116%N => Some ([], InLit ["r"; "u"; "e"]%char TTrue)
    | 102%N => Some ([], InLit ["a"; "l"; "s"; "e"]%char TFalse)
    | 110%N => Some ([], InLit ["u"; "l"; "l"]%char TNull)
    | _ => None
    end.

Definition unit_of_hex (hex : list N) : N :=
  fold_left (fun acc d => (16 * acc + d)%N) hex 0%N.

Definition scan (m : mode) (c : ascii) : option (list token * mode) :=
  match m with
  | Between => between c
  | InStr acc =>
      match code c with
      | 34%N => Some ([TStr (rev acc)], Between)
      | 92%N => Some ([], InEsc acc)
      | n => if (n <? 32)%N then None else Some ([], InStr (n :: acc))
      end
  | InEsc acc =>
      match code c with
      | 34%N => Some ([], InStr (34%N :: acc))
      | 92%N => Some ([], InStr (92%N :: acc))
      | 47%N => Some ([], InStr (47%N :: acc))
      | 98%N => Some ([], InStr (8%N :: acc))
      | 102%N => Some ([], InStr (12%N :: acc))
      | 110%N => Some ([], InStr (10%N :: acc))
      | 114%N => Some ([], InStr (13%N :: acc))
      | 116%N => Some ([], InStr (9%N :: acc))
      | 117%N => Some ([], InHex acc [])
      | _ => None
      end
  | InHex acc hex =>
      match hex_val c with
      | None => None
      | Some d =>
          if Nat.eqb (length hex) 3
          then Some ([], InStr (unit_of_hex (hex ++ [d]) :: acc))
          else Some ([], InHex acc (hex ++ [d]))
      end
  | InNum lexeme =>
      if is_numchar c then Some ([], InNum (c :: lexeme))
      else
        match number_of_lexeme (rev lexeme), between c with
        | Some q, Some (ts, m') => Some (TNum q :: ts, m')
        | _, _ => None
        end
  | InLit rest t =>
      match rest with
      | [] => None
      | x :: rest' =>
          if Ascii.eqb c x then
            match rest' with
            | [] => Some ([t], Between)
            | _ :: _ => Some ([], InLit rest' t)
            end
          else None
      end
  end.

Fixpoint lex (m : mode) (cs : list ascii) : option (list token) :=
  match cs with
  | [] =>
      match m with
      | Between => Some []
      | InNum lexeme =>
          match number_of_lexeme (rev lexeme) with
          | Some q => Some [TNum q]
          | None => None
          end
      | _ => None
      end
  | c :: rest =>
      match scan m c with
      | None => None
      | Some (ts, m') =>
          match lex m' rest with
          | Some ts' => Some (ts ++ ts')
          | None => None
          end
      end
  end.

(** The containers still open, innermost first. *)
Inductive frame : Type :=
| FArr (done : list value)
| FObj (done : list (list N * value)) (key : option (list N)).

Inductive pstate : Type :=
| PValue (stack : list frame)
| PFirst (stack : list frame)
| PKeyFirst (stack : list frame)
| PKey (stack : list frame)
| PColon (stack : list frame)
| PNext (stack : list frame)
| PDone (v : value).

(** A value is complete: hand it to the innermost open container. *)
Definition reduce (v : value) (stack : list frame) : option pstate :=
  match stack with
  | [] => Some (PDone v)
  | FArr done :: up => Some (PNext (FArr (v :: done) :: up))
  | FObj done (Some k) :: up => Some (PNext (FObj ((k, v) :: done) None :: up))
  | FObj _ None :: _ => None
  end.

Definition start_value (t : token) (stack : list frame) : option pstate :=
  match t with
  | TLBracket => Some (PFirst (FArr [] :: stack))
  | TLBrace => Some (PKeyFirst (FObj [] None :: stack))
  | TStr s => reduce (JString s) stack
  | TNum q => reduce (JNumber (Fin q)) stack
  | TTrue => reduce (JBool true) stack
  | TFalse => reduce (JBool false) stack
  | TNull => reduce JNull stack
  | TRBrace | TRBracket | TColon | TComma => None
  end.

Definition set_key (k : list N) (stack : list frame) : option pstate :=
  match stack with
  | FObj done None :: up => Some (PColon (FObj done (Some k) :: up))
  | _ => None
  end.

Definition shift (p : pstate) (t : token) : option pstate :=
  match p with
  | PValue stack => start_value t stack
  | PFirst stack =>
      match t, stack with
      | TRBracket, FArr [] :: up => reduce (JArray []) up
      | _, _ => start_value t stack
      end
  | PKeyFirst stack =>
      match t, stack with
      | TRBrace, FObj [] None :: up => reduce (JObject []) up
      | TStr k, _ => set_key k stack
      | _, _ => None
      end
  | PKey stack =>
      match t with
      | TStr k => set_key k stack
      | _ => None
      end
  | PColon stack =>
      match t with
      | TColon => Some (PValue stack)
      | _ => None
      end
  | PNext stack =>
      match t, stack with
      | TComma, FArr _ :: _ => Some (PValue stack)
      | TRBracket, FArr done :: up => reduce (JArray (rev done)) up
      | TComma, FObj _ None :: _ => Some (PKey stack)
      | TRBrace, FObj done None :: up => reduce (JObject (rev done)) up
      | _, _ => None
      end
  | PDone _ => None
  end.

Fixpoint parse_tokens (p : pstate) (ts : list token) : option value :=
  match ts with
  | [] =>
      match p with
      | PDone v => Some v
      | _ => None
      end
  | t :: rest =>
      match shift p t with
      | Some p' => parse_tokens p' rest
      | None => None
      end
  end.

End JSON.

(** ** Exceptions *)

Inductive Error : Type := SyntaxError | TypeError.

Inductive completion (A : Type) : Type :=
| Normal (a : A)
| Throw (e : Error).
Arguments Normal {A} a.
Arguments Throw {A} e.

Definition bind {A B : Type} (c : completion A) (k : A -> completion B)
    : completion B :=
  match c with
  | Normal a => k a
  | Throw e => Throw e
  end.

Notation "'let*' x := c 'in' k" := (bind c (fun x => k))
  (at level 10, x name, c at level 100, k at level 200).

(** [JSON.parse(text)]: the value, or a [SyntaxError] when [text] is not a
    JSON text. *)
Definition JSON_parse (text : string) : completion JSON.value :=
  match JSON.lex JSON.Between (list_ascii_of_string text) with
  | None => Throw SyntaxError
  | Some ts =>
      match JSON.parse_tokens (JSON.PValue []) ts with
      | Some v => Normal v
      | None => Throw SyntaxError
      end
  end.

(** ** What the host provides and the model leaves open *)

(** [Number_toString n] is the text of [n] inside a template literal;
    [JSON_stringify v] is [JSON.stringify(v)]. *)
Class Host : Type := {
  Number_toString : number -> string;
  JSON_stringify : JSON.value -> string
}.

(** [localStorage]: [getItem] is the lookup, [setItem] the insertion. *)
Abbreviation Storage := (gmap string string).

(** A string is falsy exactly when it is empty. *)
Definition truthy (s : string) : bool := negb (String.eqb s EmptyString).

Definition units (s : string) : list N :=
  map N_of_ascii (list_ascii_of_string s).

(** ** components/BreathingTimer *)

Module BreathingTimer.

Record Pattern : Type := mkPattern {
  name : string;
  inhale : number;
  hold : number;
  exhale : number
}.

Definition BREATHING_PATTERNS : list Pattern :=
  [ {| name := "Calm"; inhale := Fin 4; hold := Fin 4; exhale := Fin 6 |};
    {| name := "Focus"; inhale := Fin 4; hold := Fin 7; exhale := Fin 8 |};
    {| name := "Balance"; inhale := Fin 4; hold := Fin 4; exhale := Fin 4 |};
    {| name := "Deep"; inhale := Fin 6; hold := Fin 2; exhale := Fin 7 |} ].

(** The effect on [isBreathing]: back to zero as soon as the session is
    not running. *)
Definition effect (st : BreathingState) : BreathingState :=
  if negb (isBreathing st) then setElapsedTime (Fin 0) st else st.

(** What the one-second timer armed by the effect does when it fires. *)
Definition interval (st : BreathingState) : BreathingState :=
  setElapsedTime (elapsedTime st + Fin 1)%num st.

Section Render.
Context `{Host}.

Definition patternText (st : BreathingState) : string :=
  let pattern :=
    find (fun p => (inhale p === inhaleTime st)%num
                   && (hold p === holdTime st)%num
                   && (exhale p === exhaleTime st)%num)
         BREATHING_PATTERNS in
  match pattern with
  | Some p => name p
  | None =>
      Number_toString (inhaleTime st) +:+ "-" +:+
      Number_toString (holdTime st) +:+ "-" +:+
      Number_toString (exhaleTime st)
  end.

(** The pattern line of the timer; nothing is rendered while stopped. *)
Definition render (st : BreathingState) : option string :=
  if negb (isBreathing st) then None else Some (patternText st).

End Render.

End BreathingTimer.

(** ** components/Controls *)

Module Controls.

Record BreathingPattern : Type := mkPattern {
  name : string;
  description : string;
  inhale : number;
  hold : number;
  exhale : number;
  theme_name : string;
  theme : Theme
}.

Definition BREATHING_PATTERNS : list BreathingPattern :=
  [ {| name := "Calm";
       description := "Used for stress relief and relaxation";
       inhale := Fin 4; hold := Fin 4; exhale := Fin 6;
       theme_name := "Ocean";
       theme := {| primary := "#64b5f6"; secondary := "#80cbc4";
                   background := "#e0f7fa" |} |};
    {| name := "Focus";
       description := "Used for concentration and mental clarity";
       inhale := Fin 4; hold := Fin 7; exhale := Fin 8;
       theme_name := "Forest";
       theme := {| primary := "#81c784"; secondary := "#a5d6a7";
                   background := "#c8e6c9" |} |};
    {| name := "Balance";
       description := "Used for emotional stability and grounding";
       inhale := Fin 4; hold := Fin 4; exhale := Fin 4;
       theme_name := "Lavender";
       theme := {| primary := "#9575cd"; secondary := "#b39ddb";
                   background := "#e1bee7" |} |};
    {| name := "Deep";
       description := "Used for anxiety relief and deep relaxation";
       inhale := Fin 6; hold := Fin 2; exhale := Fin 7;
       theme_name := "Sunset";
       theme := {| primary := "#ff7043"; secondary := "#ffab91";
                   background := "#ffecb3" |} |} ].

Definition handlePatternSelect (pattern : BreathingPattern)
    (st : BreathingState) : BreathingState :=
  if isBreathing st then st
  else
    setTheme (theme pattern)
      (setBreathingPattern (inhale pattern) (hold pattern) (exhale pattern)
         st).

End Controls.

(** ** components/CustomBreathing *)

Module CustomBreathing.

Record CustomPattern : Type := mkCustom {
  inhale : number;
  hold : number;
  exhale : number
}.

(** The form's submit handler: values are clamped before they reach the
    store. *)
Definition handleSubmit (customPattern : CustomPattern)
    (st : BreathingState) : BreathingState :=
  if isBreathing st then st
  else
    let inhale' := Math_max (Fin 1) (Math_min (Fin 10) (inhale customPattern)) in
    let hold' := Math_max (Fin 0) (Math_min (Fin 10) (hold customPattern)) in
    let exhale' := Math_max (Fin 1) (Math_min (Fin 10) (exhale customPattern)) in
    setBreathingPattern inhale' hold' exhale' st.

End CustomBreathing.

(** ** pages/StatsPage *)

Module StatsPage.

Record Pattern : Type := mkPattern {
  name : string;
  inhale : number;
  hold : number;
  exhale : number;
  description : string
}.

Definition BREATHING_PATTERNS : list Pattern :=
  [ {| name := "Calm"; inhale := Fin 4; hold := Fin 4; exhale := Fin 6;
       description := "Perfect for relaxation and stress relief" |};
    {| name := "Focus"; inhale := Fin 4; hold := Fin 7; exhale := Fin 8;
       description := "Enhances concentration and mental clarity" |};
    {| name := "Balance"; inhale := Fin 4; hold := Fin 4; exhale := Fin 4;
       description := "Promotes emotional balance and stability" |};
    {| name := "Deep"; inhale := Fin 6; hold := Fin 2; exhale := Fin 7;
       description := "Deep breathing for energy and vitality" |} ].

(** What [getPatternInfo] returns: a preset of the table, or a fresh object
    with a name and a description. *)
Inductive PatternInfo : Type :=
| Preset (p : Pattern)
| Custom (name description : string).

Definition info_name (i : PatternInfo) : string :=
  match i with
  | Preset p => name p
  | Custom n _ => n
  end.

(** The component's [sessions] state holds whatever [JSON.parse] returned:
    the cast to [Session[]] checks nothing at run time. *)
Definition initial_sessions : JSON.value := JSON.JArray [].

(** The mount effect that loads the history. *)
Definition effect (localStorage : Storage) (sessions : JSON.value)
    : completion JSON.value :=
  match localStorage !! "breathing-sessions" with
  | Some storedSessions =>
      if truthy storedSessions then
        let* parsed := JSON_parse storedSessions in
        Normal parsed
      else Normal sessions
  | None => Normal sessions
  end.

Section Render.
Context `{Host}.

Definition getPatternInfo (inhale' hold' exhale' : number) : PatternInfo :=
  let pattern :=
    find (fun p => (inhale p === inhale')%num
                   && (hold p === hold')%num
                   && (exhale p === exhale')%num)
         BREATHING_PATTERNS in
  match pattern with
  | Some p => Preset p
  | None =>
      Custom (Number_toString inhale' +:+ "-" +:+
              Number_toString hold' +:+ "-" +:+
              Number_toString exhale')
             "Custom breathing pattern"
  end.

End Render.

End StatsPage.

(** ** components/StartButton *)

Module StartButton.

Section Handlers.
Context `{Host}.

(** [sessions.push(newSession)]: only an array has [push]. *)
Definition push (sessions newSession : JSON.value) : completion JSON.value :=
  match sessions with
  | JSON.JArray items => Normal (JSON.JArray (items ++ [newSession]))
  | _ => Throw TypeError
  end.

(** The record of the session being stopped; [uuid] is
    [crypto.randomUUID()] and [date] is [new Date().toISOString()]. *)
Definition newSession (uuid date : string) (st : BreathingState)
    : JSON.value :=
  JSON.JObject
    [ (units "id", JSON.JString (units uuid));
      (units "pattern",
       JSON.JString (units (Number_toString (inhaleTime st) +:+ "-" +:+
                            Number_toString (holdTime st) +:+ "-" +:+
                            Number_toString (exhaleTime st))));
      (units "duration", JSON.JNumber (elapsedTime st));
      (units "date", JSON.JString (units date));
      (units "inhaleTime", JSON.JNumber (inhaleTime st));
      (units "holdTime", JSON.JNumber (holdTime st));
      (units "exhaleTime", JSON.JNumber (exhaleTime st)) ].

(** The stop handler: save the session, then stop. *)
Definition handleStop (uuid date : string) (localStorage : Storage)
    (st : BreathingState) : completion (Storage * BreathingState) :=
  let existingSessions := localStorage !! "breathing-sessions" in
  let* sessions :=
    match existingSessions with
    | Some text =>
        if truthy text then JSON_parse text else Normal (JSON.JArray [])
    | None => Normal (JSON.JArray [])
    end in
  let* sessions' := push sessions (newSession uuid date st) in
  Normal (<["breathing-sessions" := JSON_stringify sessions']> localStorage,
          stopBreathing st).

End Handlers.

End StartButton.

(** ** What is observed of a run *)

Definition observe (a : App) : Phase * number :=
  (currentPhase (store a), scale (sphere a)).

(** The observation after each event of a run. *)
Fixpoint trace (events : list Event) (a : App) : list (Phase * number) :=
  match events with
  | [] => []
  | e :: rest => observe (step e a) :: trace rest (step e a)
  end.

Definition same_observation (o o' : Phase * number) : Prop :=
  fst o = fst o' /\ snd o =n= snd o'.

(** [s'] lies between [s] and 1. *)
Definition toward_one (s s' : Q) : Prop :=
  (1 <= s' /\ s' <= s) \/ (s <= s' /\ s' <= 1).

(** Every element of [x :: l] is related to the next one. *)
Fixpoint chain {A : Type} (R : A -> A -> Prop) (x : A) (l : list A) : Prop :=
  match l with
  | [] => True
  | y :: l' => R x y /\ chain R y l'
  end.

(** Both meshes are attached. *)
Definition mounted (c : BreathingSphere) : Prop :=
  is_Some (sphereRef c) /\ is_Some (outerSphereRef c).

(** The phase is rest exactly when the session is not running. *)
Definition rest_iff_stopped (st : BreathingState) : Prop :=
  currentPhase st = Rest <-> isBreathing st = false.

(** ** Runs with valid patterns and a clock that does not go back *)

(** Inhale and exhale times are positive rationals, the hold time a
    non-negative one. *)
Definition valid_pattern (st : BreathingState) : Prop :=
  exists i h e,
    inhaleTime st = Fin i /\ holdTime st = Fin h /\ exhaleTime st = Fin e
    /\ 0 < i /\ 0 <= h /\ 0 < e.

(** The event leaves a valid pattern in the store. *)
Definition keeps_pattern_valid (ev : Event) : Prop :=
  match ev with
  | SetBreathingPattern (Fin i) (Fin h) (Fin e) => 0 < i /\ 0 <= h /\ 0 < e
  | SetBreathingPattern _ _ _ => False
  | SetInhaleTime (Fin i) => 0 < i
  | SetInhaleTime _ => False
  | SetHoldTime (Fin h) => 0 <= h
  | SetHoldTime _ => False
  | SetExhaleTime (Fin e) => 0 < e
  | SetExhaleTime _ => False
  | _ => True
  end.

(** The reading of [Date.now()] an event carries. *)
Definition event_time (ev : Event) : option Z :=
  match ev with
  | StartBreathing now | StopBreathing now | Frame now _ => Some now
  | _ => None
  end.

(** No event reads a clock value below an earlier one, [clock] being the
    latest reading so far. *)
Fixpoint in_time_order (clock : Z) (events : list Event) : Prop :=
  match events with
  | [] => True
  | ev :: rest =>
      match event_time ev with
      | Some now => (clock <= now)%Z /\ in_time_order now rest
      | None => in_time_order clock rest
      end
  end.

(** What the meshes show agrees with [scale.current]: the inner mesh has
    that scale and has never been rotated; the outer mesh is 1.2 times as
    large, or still as created when no frame has written yet. *)
Definition meshes_follow_scale (c : BreathingSphere) : Prop :=
  exists inner outer,
    sphereRef c = Some inner /\ outerSphereRef c = Some outer
    /\ meshScale inner = scale c /\ rotationY inner = Fin 0
    /\ (meshScale outer = (scale c * outer_scale)%num
        \/ (meshScale outer = Fin 1 /\ scale c = Fin 1)).

(** What a run with valid patterns and an ordered clock keeps true, [clock]
    being the latest reading: the pattern is valid, the scale is a rational
    between 1 and 2, a running session started at or before [clock], and a
    reset in progress began at or before [clock]. *)
Definition run_invariant (clock : Z) (a : App) : Prop :=
  valid_pattern (store a)
  /\ (exists s, scale (sphere a) = Fin s /\ 1 <= s /\ s <= 2)
  /\ (isBreathing (store a) = true -> (startTime (sphere a) <= clock)%Z)
  /\ (isResetting (sphere a) = true ->
      (resetStartTime (sphere a) <= clock)%Z).

(** The clock after an event. *)
Definition clock_after (clock : Z) (ev : Event) : Z :=
  match event_time ev with
  | Some now => now
  | None => clock
  end.

(** ** More of the host's number and string functions *)

(** [Math.floor(x)] and [Math.ceil(x)] *)
Definition Math_floor (x : number) : number :=
  match x with
  | Fin q => Fin (inject_Z (Qfloor q))
  | _ => x
  end.

Definition Math_ceil (x : number) : number :=
  match x with
  | Fin q => Fin (inject_Z (Qceiling q))
  | _ => x
  end.

(** [x || d] for a number [x]: [d] when [x] is [NaN] or zero. *)
Definition or_else (x d : number) : number :=
  match x with
  | NaN => d
  | Infinity _ => x
  | Fin q => if Qeq_bool q 0 then d else x
  end.

(** The first [n] characters of [fill] repeated for ever, [cursor] being
    what is left of the current copy. *)
Fixpoint filler (n : nat) (fill cursor : string) : string :=
  match n with
  | O => EmptyString
  | S n' =>
      match cursor with
      | String ch rest => String ch (filler n' fill rest)
      | EmptyString =>
          match fill with
          | String ch rest => String ch (filler n' fill rest)
          | EmptyString => EmptyString
          end
      end
  end.

(** [s.padStart(maxLength, fillString)] *)
Definition padStart (maxLength : nat) (fillString s : string) : string :=
  if (maxLength <=? String.length s)%nat then s
  else
    match fillString with
    | EmptyString => s
    | String _ _ =>
        filler (maxLength - String.length s) fillString fillString +:+ s
    end.

(** [s.slice(start, end)] on a list, for integer arguments: a negative
    index counts from the end, and both are clamped to the list. *)
Definition slice {A : Type} (l : list A) (start final : Z) : list A :=
  let len := Z.of_nat (length l) in
  let from := if (start <? 0)%Z then Z.max (len + start) 0 else Z.min start len in
  let to := if (final <? 0)%Z then Z.max (len + final) 0 else Z.min final len in
  firstn (Z.to_nat (to - from)) (skipn (Z.to_nat from) l).

(** White space as [parseInt] skips it, among the code units below 256. *)
Definition is_space (c : ascii) : bool :=
  let n := N_of_ascii c in
  (n =? 9)%N || (n =? 10)%N || (n =? 11)%N || (n =? 12)%N || (n =? 13)%N
  || (n =? 32)%N || (n =? 160)%N.

Fixpoint trim_start (cs : list ascii) : list ascii :=
  match cs with
  | [] => []
  | c :: rest => if is_space c then trim_start rest else cs
  end.

(** The value of [c] as a digit in [radix], if it is one. *)
Definition digit_of (radix : Z) (c : ascii) : option Z :=
  let n := Z.of_N (N_of_ascii c) in
  let value :=
    if (48 <=? n)%Z && (n <=? 57)%Z then Some (n - 48)%Z
    else if (97 <=? n)%Z && (n <=? 122)%Z then Some (n - 87)%Z
    else if (65 <=? n)%Z && (n <=? 90)%Z then Some (n - 55)%Z
    else None in
  match value with
  | Some d => if (d <? radix)%Z then Some d else None
  | None => None
  end.

Fixpoint leading_digits (radix : Z) (cs : list ascii) : list Z :=
  match cs with
  | [] => []
  | c :: rest =>
      match digit_of radix c with
      | Some d => d :: leading_digits radix rest
      | None => []
      end
  end.

(** [parseInt(text, radix)] for an integer [radix], 0 standing for a
    radix left out.  The value is exact, however many digits are read. *)
Definition parseInt (text : string) (radix : Z) : number :=
  let input := trim_start (list_ascii_of_string text) in
  let '(negative, input) :=
    match input with
    | "-"%char :: rest => (true, rest)
    | "+"%char :: rest => (false, rest)
    | _ => (false, input)
    end in
  if negb (radix =? 0)%Z && ((radix <? 2)%Z || (36 <? radix)%Z) then NaN
  else
    let stripPrefix := (radix =? 0)%Z || (radix =? 16)%Z in
    let R := if (radix =? 0)%Z then 10%Z else radix in
    let '(R, input) :=
      match input with
      | "0"%char :: x :: rest =>
          if stripPrefix
             && ((N_of_ascii x =? 120)%N || (N_of_ascii x =? 88)%N)
          then (16%Z, rest) else (R, input)
      | _ => (R, input)
      end in
    match leading_digits R input with
    | [] => NaN
    | ds =>
        let value := fold_left (fun acc d => (acc * R + d)%Z) ds 0%Z in
        Fin (inject_Z (if negative then - value else value))
    end.

(** ** The clock text of BreathingTimer and StatsPage.formatDuration *)

Module TimeText.

Section Render.
Context `{Host}.

(** The timer's [minutes], [seconds] and [timeText]. *)
Definition minutes (elapsedTime : number) : number :=
  Math_floor (elapsedTime / Fin 60)%num.

Definition seconds (elapsedTime : number) : number :=
  (elapsedTime %% Fin 60)%num.

Definition timeText (st : BreathingState) : string :=
  Number_toString (minutes (elapsedTime st)) +:+ ":" +:+
  padStart 2 "0" (Number_toString (seconds (elapsedTime st))).

(** [formatDuration] of the statistics page. *)
Definition formatDuration (seconds : number) : string :=
  let minutes := Math_floor (seconds / Fin 60)%num in
  let remainingSeconds := (seconds %% Fin 60)%num in
  Number_toString minutes +:+ ":" +:+
  padStart 2 "0" (Number_toString remainingSeconds).

End Render.

End TimeText.

(** ** components/CountdownTimer *)

Module CountdownTimer.

(** The length of a phase in milliseconds. *)
Definition getPhaseDuration (phase : Phase)
    (inhaleTime holdTime exhaleTime : number) : number :=
  match phase with
  | Inhale => (inhaleTime * Fin 1000)%num
  | Hold => (holdTime * Fin 1000)%num
  | Exhale => (exhaleTime * Fin 1000)%num
  | Rest => Fin 0
  end.

(** What the 100 ms timer shows at [now], the effect having run at
    [startTime] for a phase [totalTime] long. *)
Definition remaining (totalTime : number) (startTime now : Z) : number :=
  let elapsed := Num.of_Z (now - startTime) in
  Math_max (Fin 0) (Math_ceil ((totalTime - elapsed) / Fin 1000)%num).

(** The timer stops itself once it shows zero. *)
Definition timer_stops (totalTime : number) (startTime now : Z) : bool :=
  (remaining totalTime startTime now === Fin 0)%num.

End CountdownTimer.

(** ** components/InitialCountdown *)

Module InitialCountdown.

(** [COUNTDOWN_CONFIG.initialCount] *)
Definition initialCount : number := Fin 3.

(** The effect on [count]: at zero the session starts. *)
Definition effect (count : number) (st : BreathingState) : BreathingState :=
  if (count === Fin 0)%num then startBreathing st else st.

(** One second later: the timer armed by the effect, if any, fires, the
    count goes down by one and the effect runs again. *)
Definition second (state : number * BreathingState)
    : number * BreathingState :=
  let '(count, st) := state in
  if (count === Fin 0)%num then (count, st)
  else
    let count' := (count - Fin 1)%num in
    (count', effect count' st).

(** The component once mounted. *)
Definition mounted (st : BreathingState) : number * BreathingState :=
  (initialCount, effect initialCount st).

End InitialCountdown.

(** ** components/Controls: which preset is active *)

Module ControlsView.

Definition matches (st : BreathingState) (pattern : Controls.BreathingPattern)
    : bool :=
  (Controls.inhale pattern === inhaleTime st)%num
  && (Controls.hold pattern === holdTime st)%num
  && (Controls.exhale pattern === exhaleTime st)%num.

Definition isCustomPatternActive (st : BreathingState) : bool :=
  negb (existsb (matches st) Controls.BREATHING_PATTERNS).

Definition activePattern (st : BreathingState)
    : option Controls.BreathingPattern :=
  find (matches st) Controls.BREATHING_PATTERNS.

(** The two lines of the collapsed menu header. *)
Definition header (st : BreathingState) : string * string :=
  match activePattern st with
  | Some p => (Controls.name p, Controls.description p)
  | None => ("Custom Pattern", "Custom breathing pattern")
  end.

End ControlsView.

(** ** components/CustomBreathing: the form *)

Module CustomForm.

(** The three change handlers: what is typed is read as an integer, and
    an unreadable or zero value falls back to 1 (0 for hold). *)
Definition onInhaleChange (text : string)
    (prev : CustomBreathing.CustomPattern) : CustomBreathing.CustomPattern :=
  {| CustomBreathing.inhale := or_else (parseInt text 0) (Fin 1);
     CustomBreathing.hold := CustomBreathing.hold prev;
     CustomBreathing.exhale := CustomBreathing.exhale prev |}.

Definition onHoldChange (text : string)
    (prev : CustomBreathing.CustomPattern) : CustomBreathing.CustomPattern :=
  {| CustomBreathing.inhale := CustomBreathing.inhale prev;
     CustomBreathing.hold := or_else (parseInt text 0) (Fin 0);
     CustomBreathing.exhale := CustomBreathing.exhale prev |}.

Definition onExhaleChange (text : string)
    (prev : CustomBreathing.CustomPattern) : CustomBreathing.CustomPattern :=
  {| CustomBreathing.inhale := CustomBreathing.inhale prev;
     CustomBreathing.hold := CustomBreathing.hold prev;
     CustomBreathing.exhale := or_else (parseInt text 0) (Fin 1) |}.

(** The form's initial values. *)
Definition initial : CustomBreathing.CustomPattern :=
  {| CustomBreathing.inhale := Fin 4;
     CustomBreathing.hold := Fin 4;
     CustomBreathing.exhale := Fin 6 |}.

Definition isCustomPatternActive (st : BreathingState)
    (customPattern : CustomBreathing.CustomPattern) : bool :=
  (inhaleTime st === CustomBreathing.inhale customPattern)%num
  && (holdTime st === CustomBreathing.hold customPattern)%num
  && (exhaleTime st === CustomBreathing.exhale customPattern)%num.

End CustomForm.

(** ** pages/StatsPage: the figures computed from the history *)

(** The history is taken at the type the component gives it, [Session[]].
    The page number only ever goes through [1], [+ 1], [- 1], [Math.min]
    and [Math.max] with whole numbers, and is an integer. *)
Module Stats.

Record Session : Type := mkSession {
  id : string;
  pattern : string;
  duration : number;
  date : string;
  inhaleTime : number;
  holdTime : number;
  exhaleTime : number
}.

Definition sessionsPerPage : Z := 4.

Definition totalSessions (sessions : list Session) : nat := length sessions.

Definition totalDuration (sessions : list Session) : number :=
  fold_left (fun acc session => (acc + duration session)%num) sessions
    (Fin 0).

(** [Math.ceil(sessions.length / sessionsPerPage)] *)
Definition totalPages (sessions : list Session) : Z :=
  Qceiling (inject_Z (Z.of_nat (length sessions)) / inject_Z sessionsPerPage).

Definition startIndex (currentPage : Z) : Z :=
  ((currentPage - 1) * sessionsPerPage)%Z.

Definition endIndex (currentPage : Z) : Z :=
  (startIndex currentPage + sessionsPerPage)%Z.

Definition currentSessions (sessions : list Session) (currentPage : Z)
    : list Session :=
  slice sessions (startIndex currentPage) (endIndex currentPage).

(** The two page buttons. *)
Definition previousPage (prev : Z) : Z := Z.max (prev - 1) 1.

Definition nextPage (sessions : list Session) (prev : Z) : Z :=
  Z.min (prev + 1) (totalPages sessions).

(** [acc[pattern] || 0] *)
Definition or_zero (entry : option number) : number :=
  match entry with
  | Some v => or_else v (Fin 0)
  | None => Fin 0
  end.

(** The clear button; [confirmed] is the answer to [window.confirm]. *)
Definition handleClearStats (confirmed : bool)
    (state : Storage * list Session * Z) : Storage * list Session * Z :=
  if confirmed then
    let '(localStorage, _, _) := state in
    (delete "breathing-sessions" localStorage, [], 1%Z)
  else state.

Section Render.
Context `{Host}.

(** The name a session is counted under. *)
Definition usageName (session : Session) : string :=
  StatsPage.info_name
    (StatsPage.getPatternInfo (inhaleTime session) (holdTime session)
       (exhaleTime session)).

(** How often each pattern name was used.  The accumulator is an object
    used as a map; a name is a preset name or three numbers joined by
    dashes. *)
Definition patternUsage (sessions : list Session) : gmap string number :=
  fold_left
    (fun acc session =>
       let pattern := usageName session in
       <[pattern := (or_zero (acc !! pattern) + Fin 1)%num]> acc)
    sessions ∅.

End Render.

End Stats.

(** ** store/breathingStore: the scrollbar colours *)

Module Scrollbar.

(** [s.replace(c, '')] for a one-character pattern: the first occurrence
    goes. *)
Fixpoint remove_first (c : ascii) (s : string) : string :=
  match s with
  | EmptyString => EmptyString
  | String a rest =>
      if Ascii.eqb a c then rest else String a (remove_first c rest)
  end.

(** The red, green and blue read from the colour text. *)
Definition channels (primary : string) : number * number * number :=
  let primaryColor := remove_first "#" primary in
  let r := parseInt (substring 0 2 primaryColor) 16 in
  let g := parseInt (substring 2 2 primaryColor) 16 in
  let b := parseInt (substring 4 2 primaryColor) 16 in
  (r, g, b).

Section Render.
Context `{Host}.

Definition rgba (channel : number * number * number) (alpha : string)
    : string :=
  let '(r, g, b) := channel in
  "rgba(" +:+ Number_toString r +:+ ", " +:+ Number_toString g +:+ ", " +:+
  Number_toString b +:+ ", " +:+ alpha +:+ ")".

(** [updateScrollbarColors]; [style] holds the custom properties of the
    document's root element. *)
Definition updateScrollbarColors (primary : string)
    (style : gmap string string) : gmap string string :=
  <["--scrollbar-thumb-hover" := rgba (channels primary) "0.7"]>
    (<["--scrollbar-thumb" := rgba (channels primary) "0.5"]> style).

(** [setTheme] with both of its effects. *)
Definition setTheme_full (t : Theme)
    (state : BreathingState * gmap string string)
    : BreathingState * gmap string string :=
  (setTheme t (fst state), updateScrollbarColors (primary t) (snd state)).

End Render.

End Scrollbar.

(** * Properties *)

(** ** Arithmetic of the number model *)

Lemma Qltb_lt (a b : Q) : Num.Qltb a b = true <-> a < b.
Proof.
  unfold Num.Qltb. rewrite negb_true_iff.
  split; intros Hab.
  - apply Qnot_le_lt. intros Hle. apply Qle_bool_iff in Hle. congruence.
  - destruct (Qle_bool b a) eqn:E; [|reflexivity].
    apply Qle_bool_iff in E. lra.
Qed.

Lemma Qltb_ge (a b : Q) : Num.Qltb a b = false <-> b <= a.
Proof.
  unfold Num.Qltb. rewrite negb_false_iff. apply Qle_bool_iff.
Qed.

Lemma Qeq_bool_false (a b : Q) : ~ a == b -> Qeq_bool a b = false.
Proof.
  intros Hne. destruct (Qeq_bool a b) eqn:E; [|reflexivity].
  apply Qeq_bool_iff in E. contradiction.
Qed.

Lemma Qeq_bool_true (a b : Q) : a == b -> Qeq_bool a b = true.
Proof. apply Qeq_bool_iff. Qed.

Lemma lt_Fin (a b : Q) : (Fin a <? Fin b)%num = Num.Qltb a b.
Proof. reflexivity. Qed.

Lemma div_Fin (a b : Q) : ~ b == 0 -> (Fin a / Fin b)%num = Fin (a / b).
Proof. intros Hb. cbn. now rewrite Qeq_bool_false. Qed.

Lemma rem_Fin (a b : Q) :
  ~ b == 0 -> (Fin a %% Fin b)%num = Fin (a - b * inject_Z (Num.trunc (a / b))).
Proof. intros Hb. cbn. now rewrite Qeq_bool_false. Qed.

Lemma rem_zero (a b : Q) : b == 0 -> (Fin a %% Fin b)%num = NaN.
Proof. intros Hb. cbn. now rewrite Qeq_bool_true. Qed.

Lemma trunc_nonneg (x : Q) : 0 <= x -> Num.trunc x = Qfloor x.
Proof.
  intros Hx. unfold Num.trunc.
  now rewrite (proj2 (Qltb_ge x 0) Hx).
Qed.

(** The remainder of a non-negative dividend by a positive divisor lies in
    the divisor's range. *)
Lemma rem_range (a b : Q) :
  0 <= a -> 0 < b ->
  0 <= a - b * inject_Z (Num.trunc (a / b))
  /\ a - b * inject_Z (Num.trunc (a / b)) < b.
Proof.
  intros Ha Hb.
  assert (Hx : 0 <= a / b).
  { apply Qle_shift_div_l; lra. }
  rewrite (trunc_nonneg _ Hx).
  pose proof (Qfloor_le (a / b)) as Hlo.
  pose proof (Qlt_floor (a / b)) as Hhi.
  rewrite inject_Z_plus in Hhi.
  set (f := inject_Z (Qfloor (a / b))) in *.
  assert (Ha' : a == (a / b) * b) by (field; lra).
  set (x := a / b) in *.
  change (inject_Z 1) with 1 in Hhi.
  split; nra.
Qed.

(** ** The running branch of the frame callback *)

Section Running.

Variables (now : Z) (delta : number) (st : BreathingState).
Variables (c : BreathingSphere) (inner outer : Mesh).
Hypothesis Hinner : sphereRef c = Some inner.
Hypothesis Houter : outerSphereRef c = Some outer.
Hypothesis Hidle : isResetting c = false.
Hypothesis Hrun : isBreathing st = true.

Lemma useFrame_running_phase :
  currentPhase (fst (useFrame now delta st c)) =
    fst (breathingTarget (inhaleTime st) (holdTime st) (exhaleTime st)
           (cycleTime now st c)).
Proof.
  unfold useFrame. rewrite Hinner, Houter, Hidle, Hrun. cbn [negb].
  now destruct (breathingTarget _ _ _ _).
Qed.

Lemma useFrame_running_scale :
  scale (snd (useFrame now delta st c)) =
    Math_min
      (snd (breathingTarget (inhaleTime st) (holdTime st) (exhaleTime st)
              (cycleTime now st c)))
      (maxScale c).
Proof.
  unfold useFrame. rewrite Hinner, Houter, Hidle, Hrun. cbn [negb].
  now destruct (breathingTarget _ _ _ _).
Qed.

Lemma useFrame_running_store :
  fst (useFrame now delta st c) =
    setCurrentPhase
      (fst (breathingTarget (inhaleTime st) (holdTime st) (exhaleTime st)
              (cycleTime now st c)))
      st.
Proof.
  unfold useFrame. rewrite Hinner, Houter, Hidle, Hrun. cbn [negb].
  now destruct (breathingTarget _ _ _ _).
Qed.

Lemma useFrame_running_sphere :
  let c' := snd (useFrame now delta st c) in
  is_Some (sphereRef c') /\ is_Some (outerSphereRef c')
  /\ startTime c' = startTime c /\ isResetting c' = false
  /\ resetStartTime c' = resetStartTime c /\ isMobile c' = isMobile c.
Proof.
  unfold useFrame. rewrite Hinner, Houter, Hidle, Hrun. cbn [negb].
  destruct (breathingTarget _ _ _ _). cbn. eauto 10.
Qed.

End Running.

Lemma totalCycleTime_Fin (st : BreathingState) (i h e : Q) :
  inhaleTime st = Fin i -> holdTime st = Fin h -> exhaleTime st = Fin e ->
  totalCycleTime st = Fin (i + h + e).
Proof. intros Hi Hh He. unfold totalCycleTime. now rewrite Hi, Hh, He. Qed.

Lemma elapsed_Fin (z : Z) :
  (Num.of_Z z / Fin 1000)%num = Fin (inject_Z z / 1000).
Proof. reflexivity. Qed.

(** With a positive cycle length and a clock that has not gone back, the
    cycle time is a rational inside the cycle. *)
Lemma cycleTime_range (now : Z) (st : BreathingState) (c : BreathingSphere)
    (i h e : Q) :
  inhaleTime st = Fin i -> holdTime st = Fin h -> exhaleTime st = Fin e ->
  0 < i + h + e -> (startTime c <= now)%Z ->
  exists t, cycleTime now st c = Fin t /\ 0 <= t /\ t < i + h + e.
Proof.
  intros Hi Hh He Hpos Hnow.
  unfold cycleTime. rewrite (totalCycleTime_Fin st i h e Hi Hh He).
  rewrite elapsed_Fin, rem_Fin by lra.
  eexists. split; [reflexivity|].
  apply rem_range; [|exact Hpos].
  apply Qle_shift_div_l; [lra|].
  rewrite Qmult_0_l. change 0 with (inject_Z 0). rewrite <- Zle_Qle. lia.
Qed.

(** The branch taken by [breathingTarget] on rationals. *)
Lemma breathingTarget_Fin (i h e t : Q) :
  0 < i -> 0 < e ->
  breathingTarget (Fin i) (Fin h) (Fin e) (Fin t) =
    if Num.Qltb t i then (Inhale, Fin (1 + t / i))
    else if Num.Qltb t (i + h) then (Hold, Fin 2)
    else (Exhale, Fin (2 + - ((t + - (i + h)) / e))).
Proof.
  intros Hi He. unfold breathingTarget.
  cbn [Num.add Num.sub Num.neg]. rewrite !lt_Fin, !div_Fin by lra.
  reflexivity.
Qed.

(** C1. For a pattern with positive inhale and exhale times and a
    non-negative hold time, and a position [t] inside the cycle, the phase is
    inhale exactly when [t < inhale], hold exactly when
    [inhale <= t < inhale + hold], exhale exactly when
    [inhale + hold <= t], and never rest; and the phase a running frame
    reports to the store is the one of its cycle time, which lies inside
    the cycle. *)
Theorem phase_partition (i h e : Q) :
  0 < i -> 0 <= h -> 0 < e ->
  (forall t, 0 <= t -> t < i + h + e ->
     let phase := fst (breathingTarget (Fin i) (Fin h) (Fin e) (Fin t)) in
     (phase = Inhale <-> t < i)
     /\ (phase = Hold <-> i <= t /\ t < i + h)
     /\ (phase = Exhale <-> i + h <= t)
     /\ phase <> Rest)
  /\ (forall now delta st c inner outer,
        inhaleTime st = Fin i -> holdTime st = Fin h ->
        exhaleTime st = Fin e -> isBreathing st = true ->
        sphereRef c = Some inner -> outerSphereRef c = Some outer ->
        isResetting c = false -> (startTime c <= now)%Z ->
        exists t,
          cycleTime now st c = Fin t /\ 0 <= t /\ t < i + h + e
          /\ currentPhase (fst (useFrame now delta st c)) =
             fst (breathingTarget (Fin i) (Fin h) (Fin e) (Fin t))).
Proof.
  intros Hi Hh He. split.
  - intros t Ht0 Ht1 phase. subst phase.
    rewrite breathingTarget_Fin by assumption.
    destruct (Num.Qltb t i) eqn:E1;
      [apply Qltb_lt in E1
      |apply Qltb_ge in E1; destruct (Num.Qltb t (i + h)) eqn:E2;
       [apply Qltb_lt in E2 | apply Qltb_ge in E2]];
      cbn [fst]; repeat split; intros; try discriminate; lra.
  - intros now delta st c inner outer Hit Hht Het Hrun Hin Hout Hidle Hnow.
    destruct (cycleTime_range now st c i h e Hit Hht Het) as (t & Ht & H0 & H1);
      [lra | assumption |].
    exists t. repeat split; try assumption.
    rewrite (useFrame_running_phase now delta st c inner outer) by assumption.
    now rewrite Hit, Hht, Het, Ht.
Qed.

Lemma phase_partition_witness :
  (fst (breathingTarget (Fin 4) (Fin 4) (Fin 6) (Fin 5)) = Hold
   <-> 4 <= 5 /\ 5 < 4 + 4).
Proof.
  destruct (phase_partition 4 4 6) as [Hpart _]; [lra | lra | lra |].
  destruct (Hpart 5) as (_ & Hhold & _); [lra | lra |].
  exact Hhold.
Defined.

(** ** A session with the pattern 4-0-6 *)

(** C2. Pattern 4-0-6 on a desktop window, session started at time 0: the
    frames at 0 s, 2 s, 4 s, 7 s and 10 s report inhale with scale 1,
    inhale with scale 1.5, exhale with scale 2, exhale with scale 1.5, and,
    the cycle having wrapped, inhale with scale 1. *)
Theorem scenario_4_0_6 (mounted_at : Z) (delta : number) :
  let a := run [SetBreathingPattern (Fin 4) (Fin 0) (Fin 6);
                StartBreathing 0]
               (mount mounted_at (Fin 1024)) in
  Forall2 same_observation
    (trace [Frame 0 delta; Frame 2000 delta; Frame 4000 delta;
            Frame 7000 delta; Frame 10000 delta] a)
    [(Inhale, Fin 1); (Inhale, Fin (15 # 10)); (Exhale, Fin 2);
     (Exhale, Fin (15 # 10)); (Inhale, Fin 1)].
Proof.
  cbv zeta. vm_compute. repeat constructor.
Qed.

(** ** Bounds on the scale *)

Lemma Math_min_Fin (a b : Q) :
  Math_min (Fin a) (Fin b) = Fin (if Num.Qltb b a then b else a).
Proof. cbn. now destruct (Num.Qltb b a). Qed.

Lemma maxScale_Fin (c : BreathingSphere) :
  maxScale c = Fin (if isMobile c then 15 # 10 else 2).
Proof. unfold maxScale. now destruct (isMobile c). Qed.

(** Before the cap the target scale of a position inside the cycle lies
    between 1 and 2. *)
Lemma targetScale_range (i h e t : Q) :
  0 < i -> 0 <= h -> 0 < e -> 0 <= t -> t < i + h + e ->
  exists target,
    snd (breathingTarget (Fin i) (Fin h) (Fin e) (Fin t)) = Fin target
    /\ 1 <= target /\ target <= 2.
Proof.
  intros Hi Hh He Ht0 Ht1. rewrite breathingTarget_Fin by assumption.
  destruct (Num.Qltb t i) eqn:E1.
  - apply Qltb_lt in E1. eexists; split; [reflexivity|].
    assert (0 <= t / i) by (apply Qle_shift_div_l; lra).
    assert (t / i <= 1) by (apply Qle_shift_div_r; lra).
    lra.
  - apply Qltb_ge in E1. destruct (Num.Qltb t (i + h)) eqn:E2.
    + eexists; split; [reflexivity|]. lra.
    + apply Qltb_ge in E2. eexists; split; [reflexivity|].
      assert (0 <= (t + - (i + h)) / e) by (apply Qle_shift_div_l; lra).
      assert ((t + - (i + h)) / e <= 1) by (apply Qle_shift_div_r; lra).
      lra.
Qed.

(** C6. At a frame of a running session (positive inhale and exhale times,
    non-negative hold time, clock not before the start) the target scale
    lies in [1, 2] and the scale written lies between 1 and the cap, 1.5 on
    a mobile window and 2 otherwise.  With the pattern 4-4-6, at any frame
    whose cycle time falls in the hold window the target is 2 and the scale
    written is 1.5 on mobile and 2 on desktop. *)
Theorem scale_bounds (i h e : Q) (now : Z) (delta : number)
    (st : BreathingState) (c : BreathingSphere) (inner outer : Mesh) :
  0 < i -> 0 <= h -> 0 < e ->
  inhaleTime st = Fin i -> holdTime st = Fin h -> exhaleTime st = Fin e ->
  isBreathing st = true ->
  sphereRef c = Some inner -> outerSphereRef c = Some outer ->
  isResetting c = false -> (startTime c <= now)%Z ->
  (exists t target s,
     cycleTime now st c = Fin t
     /\ snd (breathingTarget (Fin i) (Fin h) (Fin e) (Fin t)) = Fin target
     /\ 1 <= target /\ target <= 2
     /\ scale (snd (useFrame now delta st c)) = Fin s
     /\ 1 <= s /\ s <= (if isMobile c then 15 # 10 else 2))
  /\ (i == 4 -> h == 4 -> e == 6 ->
      forall t, cycleTime now st c = Fin t -> 4 <= t -> t < 8 ->
        breathingTarget (Fin i) (Fin h) (Fin e) (Fin t) = (Hold, Fin 2)
        /\ scale (snd (useFrame now delta st c)) =
           Fin (if isMobile c then 15 # 10 else 2)).
Proof.
  intros Hi Hh He Hit Hht Het Hrun Hin Hout Hidle Hnow.
  pose proof (useFrame_running_scale now delta st c inner outer
                Hin Hout Hidle Hrun) as Hscale.
  rewrite Hit, Hht, Het in Hscale.
  split.
  - destruct (cycleTime_range now st c i h e Hit Hht Het) as (t & Ht & H0 & H1);
      [lra | assumption |].
    destruct (targetScale_range i h e t Hi Hh He H0 H1) as (tg & Htg & Hlo & Hhi).
    rewrite Ht, Htg, maxScale_Fin, Math_min_Fin in Hscale.
    exists t, tg. eexists. repeat split; try eassumption.
    + destruct (isMobile c); destruct (Num.Qltb _ tg); lra.
    + destruct (isMobile c); destruct (Num.Qltb _ tg) eqn:E;
        try lra; apply Qltb_ge in E; lra.
  - intros Ei Eh Ee t Ht H4 H8.
    assert (Htarget :
      breathingTarget (Fin i) (Fin h) (Fin e) (Fin t) = (Hold, Fin 2)).
    { rewrite breathingTarget_Fin by assumption.
      rewrite (proj2 (Qltb_ge t i)) by lra.
      now rewrite (proj2 (Qltb_lt t (i + h))) by lra. }
    split; [exact Htarget|].
    rewrite Hscale, Ht, Htarget. cbn [snd]. unfold maxScale.
    now destruct (isMobile c).
Qed.

Lemma scale_bounds_witness :
  let st := startBreathing useBreathingStore in
  let c := isBreathingEffect 0 st
             (checkMobile (Fin 390) (attach newSphere)) in
  scale (snd (useFrame 5000 (Fin 0) st c)) = Fin (15 # 10).
Proof.
  intros st c.
  assert (H4 : 0 < 4) by reflexivity.
  assert (H4' : 0 <= 4) by discriminate.
  assert (H6 : 0 < 6) by reflexivity.
  assert (Hnow : (startTime c <= 5000)%Z) by discriminate.
  destruct (scale_bounds 4 4 6 5000 (Fin 0) st c
              {| meshScale := Fin 1; rotationY := Fin 0 |}
              {| meshScale := Fin 1; rotationY := Fin 0 |}
              H4 H4' H6 eq_refl eq_refl eq_refl eq_refl eq_refl eq_refl
              eq_refl Hnow)
    as [_ Hhold].
  refine (proj2 (Hhold _ _ _ _ _ _ _));
    [ reflexivity | reflexivity | reflexivity
    | vm_compute; reflexivity
    | vm_compute; intro; discriminate
    | vm_compute; reflexivity ].
Defined.

(** ** The running branch keeps no history *)

(** C7. Two evaluations of a running frame at the same [now], for the same
    pattern and the same start time, report the same phase and, for the same
    window class, write the same scale, whatever the scale, the rotation,
    the phase and the counters left by earlier frames; evaluating the frame
    again at the same [now] changes neither the phase nor the scale. *)
Theorem frame_depends_on_time_only (now : Z) (delta1 delta2 : number)
    (st1 st2 : BreathingState) (c1 c2 : BreathingSphere)
    (inner1 outer1 inner2 outer2 : Mesh) :
  sphereRef c1 = Some inner1 -> outerSphereRef c1 = Some outer1 ->
  sphereRef c2 = Some inner2 -> outerSphereRef c2 = Some outer2 ->
  isResetting c1 = false -> isResetting c2 = false ->
  isBreathing st1 = true -> isBreathing st2 = true ->
  inhaleTime st1 = inhaleTime st2 -> holdTime st1 = holdTime st2 ->
  exhaleTime st1 = exhaleTime st2 -> startTime c1 = startTime c2 ->
  currentPhase (fst (useFrame now delta1 st1 c1)) =
    currentPhase (fst (useFrame now delta2 st2 c2))
  /\ (isMobile c1 = isMobile c2 ->
      scale (snd (useFrame now delta1 st1 c1)) =
        scale (snd (useFrame now delta2 st2 c2)))
  /\ (let st' := fst (useFrame now delta1 st1 c1) in
      let c' := snd (useFrame now delta1 st1 c1) in
      currentPhase (fst (useFrame now delta2 st' c')) = currentPhase st'
      /\ scale (snd (useFrame now delta2 st' c')) = scale c').
Proof.
  intros Hin1 Hout1 Hin2 Hout2 Hidle1 Hidle2 Hrun1 Hrun2 Hi Hh He Hstart.
  assert (Hsame : forall d1 d2 sa sb ca cb ia oa ib ob,
            sphereRef ca = Some ia -> outerSphereRef ca = Some oa ->
            sphereRef cb = Some ib -> outerSphereRef cb = Some ob ->
            isResetting ca = false -> isResetting cb = false ->
            isBreathing sa = true -> isBreathing sb = true ->
            inhaleTime sa = inhaleTime sb -> holdTime sa = holdTime sb ->
            exhaleTime sa = exhaleTime sb -> startTime ca = startTime cb ->
            currentPhase (fst (useFrame now d1 sa ca)) =
              currentPhase (fst (useFrame now d2 sb cb))
            /\ (isMobile ca = isMobile cb ->
                scale (snd (useFrame now d1 sa ca)) =
                  scale (snd (useFrame now d2 sb cb)))).
  { intros d1 d2 sa sb ca cb ia oa ib ob Ha1 Ha2 Hb1 Hb2 Ra Rb Ba Bb Ei Eh Ee Es.
    rewrite (useFrame_running_phase now d1 sa ca ia oa) by assumption.
    rewrite (useFrame_running_phase now d2 sb cb ib ob) by assumption.
    rewrite (useFrame_running_scale now d1 sa ca ia oa) by assumption.
    rewrite (useFrame_running_scale now d2 sb cb ib ob) by assumption.
    unfold cycleTime, totalCycleTime, maxScale. rewrite Ei, Eh, Ee, Es.
    split; [reflexivity | now intros ->]. }
  destruct (Hsame delta1 delta2 st1 st2 c1 c2 inner1 outer1 inner2 outer2)
    as [Hphase Hscale]; try assumption.
  split; [exact Hphase|]. split; [exact Hscale|].
  cbv zeta.
  destruct (useFrame_running_sphere now delta1 st1 c1 inner1 outer1)
    as ([i' Hi'] & [o' Ho'] & Hs' & Hr' & _ & Hm'); try assumption.
  pose proof (useFrame_running_store now delta1 st1 c1 inner1 outer1
                Hin1 Hout1 Hidle1 Hrun1) as Hst'.
  destruct (Hsame delta2 delta1
              (fst (useFrame now delta1 st1 c1)) st1
              (snd (useFrame now delta1 st1 c1)) c1
              i' o' inner1 outer1) as [Hp Hs];
    try assumption; try (rewrite Hst'; solve [reflexivity | exact Hrun1]).
  split; [exact Hp | exact (Hs Hm')].
Qed.

Lemma frame_depends_on_time_only_witness :
  let st := startBreathing useBreathingStore in
  let c := isBreathingEffect 0 st (attach newSphere) in
  let st' := setElapsedTime (Fin 9) (setCurrentPhase Exhale st) in
  let c' := snd (useFrame 12000 (Fin 1) st c) in
  currentPhase (fst (useFrame 5000 (Fin 0) st c)) =
    currentPhase (fst (useFrame 5000 (Fin 3) st' c')).
Proof.
  intros st c st' c'.
  apply (frame_depends_on_time_only 5000 (Fin 0) (Fin 3) st st' c c'
           {| meshScale := Fin 1; rotationY := Fin 0 |}
           {| meshScale := Fin 1; rotationY := Fin 0 |}
           {| meshScale := scale c'; rotationY := Fin 0 |}
           {| meshScale := (scale c' * outer_scale)%num;
              rotationY := (Fin 0 + Fin 1 * Fin (2 # 10))%num |});
    reflexivity.
Defined.

(** ** The reset animation *)

Lemma resetProgress_Fin (now : Z) (c : BreathingSphere) :
  resetProgress now c =
    Fin (if Num.Qltb 1 (inject_Z (now - resetStartTime c) / 1000 / (1 # 2))
         then 1
         else inject_Z (now - resetStartTime c) / 1000 / (1 # 2)).
Proof.
  unfold resetProgress. rewrite elapsed_Fin, div_Fin by discriminate.
  apply Math_min_Fin.
Qed.

Lemma half_second (z : Z) : inject_Z z / 1000 / (1 # 2) == inject_Z z / 500.
Proof. field. Qed.

(** The progress is never above 1, is not negative once the clock has passed
    the start of the reset, and is 1 from 500 ms on and not before. *)
Lemma resetProgress_range (now : Z) (c : BreathingSphere) :
  exists p,
    resetProgress now c = Fin p /\ p <= 1
    /\ ((resetStartTime c <= now)%Z -> 0 <= p)
    /\ ((500 <= now - resetStartTime c)%Z -> p == 1)
    /\ ((now - resetStartTime c < 500)%Z -> p < 1).
Proof.
  rewrite resetProgress_Fin. eexists; split; [reflexivity|].
  pose proof (half_second (now - resetStartTime c)) as Hhalf.
  set (z := (now - resetStartTime c)%Z) in *.
  set (p := inject_Z z / 1000 / (1 # 2)) in *.
  assert (Hge : (500 <= z)%Z -> 1 <= p).
  { intros Hz. rewrite Hhalf. apply Qle_shift_div_l; [reflexivity|].
    change (1 * 500) with (inject_Z 500). now rewrite <- Zle_Qle. }
  assert (Hlt : (z < 500)%Z -> p < 1).
  { intros Hz. rewrite Hhalf. apply Qlt_shift_div_r; [reflexivity|].
    change (1 * 500) with (inject_Z 500). now rewrite <- Zlt_Qlt. }
  assert (Hpos : (0 <= z)%Z -> 0 <= p).
  { intros Hz. rewrite Hhalf. apply Qle_shift_div_l; [reflexivity|].
    change (0 * 500) with (inject_Z 0). now rewrite <- Zle_Qle. }
  destruct (Num.Qltb 1 p) eqn:E.
  - apply Qltb_lt in E. repeat split; intros; try lra.
    specialize (Hlt ltac:(assumption)). lra.
  - apply Qltb_ge in E. repeat split; intros; try lra.
    + apply Hpos. subst z. lia.
    + specialize (Hge ltac:(assumption)). lra.
    + auto.
Qed.

Lemma lerp_to_one (s p : Q) :
  lerp (Fin s) (Fin 1) (Fin p) = Fin ((1 + - p) * s + p * 1).
Proof. reflexivity. Qed.

Lemma lerp_toward_one (s p : Q) :
  0 <= p -> p <= 1 -> toward_one s ((1 + - p) * s + p * 1).
Proof.
  intros H0 H1. unfold toward_one.
  destruct (Qlt_le_dec s 1); [right | left]; split; nra.
Qed.

Section Resetting.

Variables (now : Z) (delta : number) (st : BreathingState).
Variables (c : BreathingSphere) (s : Q).
Hypothesis Hmounted : mounted c.
Hypothesis Hreset : isResetting c = true.
Hypothesis Hscale : scale c = Fin s.

(** One frame of the reset animation. *)
Lemma useFrame_resetting :
  exists p,
    resetProgress now c = Fin p
    /\ fst (useFrame now delta st c) = st
    /\ mounted (snd (useFrame now delta st c))
    /\ resetStartTime (snd (useFrame now delta st c)) = resetStartTime c
    /\ scale (snd (useFrame now delta st c)) = Fin ((1 + - p) * s + p * 1)
    /\ isResetting (snd (useFrame now delta st c)) = negb (Qeq_bool p 1).
Proof.
  destruct (resetProgress_range now c) as (p & Hp & _).
  exists p. split; [exact Hp|].
  destruct Hmounted as [[inner Hin] [outer Hout]].
  unfold useFrame. rewrite Hin, Hout, Hreset, Hp, Hscale, lerp_to_one.
  cbn. unfold mounted. cbn.
  repeat split; eauto.
Qed.

End Resetting.

(** A frame of a stopped session outside the reset animation does nothing. *)
Lemma useFrame_idle (now : Z) (delta : number) (st : BreathingState)
    (c : BreathingSphere) :
  isResetting c = false -> isBreathing st = false ->
  useFrame now delta st c = (st, c).
Proof.
  intros Hidle Hstop. unfold useFrame. rewrite Hidle, Hstop.
  now destruct (sphereRef c), (outerSphereRef c).
Qed.

Lemma toward_one_refl (s : Q) : toward_one s s.
Proof.
  unfold toward_one. destruct (Qlt_le_dec s 1); [right | left]; split; lra.
Qed.

(** Over a run of frames of a stopped session the scale only moves toward
    1. *)
Lemma scales_toward_one (ticks : list (Z * number)) :
  forall (st : BreathingState) (c : BreathingSphere) (s : Q),
    mounted c -> isBreathing st = false -> scale c = Fin s ->
    Forall (fun tick => (resetStartTime c <= fst tick)%Z) ticks ->
    exists qs, scales ticks st c = map Fin qs /\ chain toward_one s qs.
Proof.
  induction ticks as [|[now delta] ticks IH]; intros st c s Hm Hstop Hs Hticks.
  - exists []. now split.
  - inversion Hticks as [|? ? Hnow Hrest]; subst. cbn [fst] in Hnow.
    cbn [scales]. destruct (isResetting c) eqn:Hreset.
    + destruct (useFrame_resetting now delta st c s Hm Hreset Hs)
        as (p & Hp & Hst & Hm' & Hr' & Hs' & _).
      destruct (resetProgress_range now c) as (p' & Hp' & Hle & Hge & _).
      rewrite Hp in Hp'. injection Hp' as <-.
      destruct (useFrame now delta st c) as [st' c'] eqn:Hframe.
      cbn [fst snd] in *. subst st'.
      destruct (IH st c' _ Hm' Hstop Hs') as (qs & Hqs & Hchain).
      { now rewrite Hr'. }
      eexists (_ :: qs). cbn [map chain]. rewrite Hs', Hqs.
      split; [reflexivity|]. split; [|exact Hchain].
      apply lerp_toward_one; auto.
    + rewrite (useFrame_idle now delta st c Hreset Hstop).
      destruct (IH st c s Hm Hstop Hs Hrest) as (qs & Hqs & Hchain).
      exists (s :: qs). cbn [map chain]. rewrite Hs, Hqs.
      split; [reflexivity|]. split; [apply toward_one_refl | exact Hchain].
Qed.

Lemma frames_app (pre post : list (Z * number)) :
  forall st c,
    frames (pre ++ post) st c =
      frames post (fst (frames pre st c)) (snd (frames pre st c)).
Proof.
  induction pre as [|[now delta] pre IH]; intros st c; cbn [frames app].
  - reflexivity.
  - destruct (useFrame now delta st c) as [st' c']. apply IH.
Qed.

(** Until 500 ms have passed the animation stays on. *)
Lemma frames_before_deadline (pre : list (Z * number)) :
  forall (st : BreathingState) (c : BreathingSphere) (s : Q),
    mounted c -> isResetting c = true -> scale c = Fin s ->
    Forall (fun tick => (fst tick - resetStartTime c < 500)%Z) pre ->
    fst (frames pre st c) = st
    /\ mounted (snd (frames pre st c))
    /\ isResetting (snd (frames pre st c)) = true
    /\ resetStartTime (snd (frames pre st c)) = resetStartTime c
    /\ exists s', scale (snd (frames pre st c)) = Fin s'.
Proof.
  induction pre as [|[now delta] pre IH]; intros st c s Hm Hreset Hs Hpre.
  - cbn. eauto 10.
  - inversion Hpre as [|? ? Hnow Hrest]; subst. cbn [fst] in Hnow.
    destruct (useFrame_resetting now delta st c s Hm Hreset Hs)
      as (p & Hp & Hst & Hm' & Hr' & Hs' & Hflag).
    destruct (resetProgress_range now c) as (p' & Hp' & _ & _ & _ & Hlt).
    rewrite Hp in Hp'. injection Hp' as <-.
    cbn [frames]. destruct (useFrame now delta st c) as [st' c'] eqn:Hframe.
    cbn [fst snd] in *. subst st'.
    assert (Hon : isResetting c' = true).
    { rewrite Hflag, Qeq_bool_false; [reflexivity|]. specialize (Hlt Hnow). lra. }
    destruct (IH st c' _ Hm' Hon Hs') as (H1 & H2 & H3 & H4 & H5).
    { now rewrite Hr'. }
    rewrite H4, Hr'. auto.
Qed.

(** C3. After a stop, with the meshes attached and the clock not before the
    start of the reset: over any run of frames every scale written lies
    between the previous one and 1, whatever rational the scale was when the
    reset began; and at the first frame that comes 500 ms or more after the
    start of the reset, progress is 1, the scale is exactly 1 and resetting
    mode ends, having stayed on until then. *)
Theorem reset_decay (ticks : list (Z * number)) (st : BreathingState)
    (c : BreathingSphere) (s : Q) :
  mounted c -> isResetting c = true -> isBreathing st = false ->
  scale c = Fin s ->
  Forall (fun tick => (resetStartTime c <= fst tick)%Z) ticks ->
  (exists qs, scales ticks st c = map Fin qs /\ chain toward_one s qs)
  /\ (forall pre now delta post,
        ticks = pre ++ (now, delta) :: post ->
        Forall (fun tick => (fst tick - resetStartTime c < 500)%Z) pre ->
        (500 <= now - resetStartTime c)%Z ->
        isResetting (snd (frames pre st c)) = true
        /\ resetProgress now (snd (frames pre st c)) =n= Fin 1
        /\ scale (snd (frames (pre ++ [(now, delta)]) st c)) =n= Fin 1
        /\ isResetting (snd (frames (pre ++ [(now, delta)]) st c)) = false).
Proof.
  intros Hm Hreset Hstop Hs Hticks. split.
  - now apply scales_toward_one.
  - intros pre now delta post _ Hpre Hnow.
    destruct (frames_before_deadline pre st c s Hm Hreset Hs Hpre)
      as (Hst & Hm' & Hon & Hr' & s' & Hs').
    split; [exact Hon|].
    rewrite frames_app. cbn [frames].
    destruct (useFrame_resetting now delta (fst (frames pre st c))
                (snd (frames pre st c)) s' Hm' Hon Hs')
      as (p & Hp & _ & _ & _ & Hscale & Hflag).
    destruct (resetProgress_range now (snd (frames pre st c)))
      as (p' & Hp' & _ & _ & Hone & _).
    rewrite Hp in Hp'. injection Hp' as <-.
    rewrite Hr' in Hone. specialize (Hone Hnow).
    destruct (useFrame now delta _ _) as [st'' c''].
    cbn [fst snd] in *. rewrite Hp, Hscale, Hflag.
    split; [exact Hone|]. split.
    + cbn. rewrite Hone. ring.
    + now rewrite Qeq_bool_true.
Qed.

Lemma reset_decay_witness :
  let a := run [StartBreathing 0; Frame 5000 (Fin 0); StopBreathing 6000]
               (mount 0 (Fin 1024)) in
  scale (snd (frames [(6100, Fin 0); (6300, Fin 0); (6500, Fin 0)]%Z
                     (store a) (sphere a))) =n= Fin 1.
Proof.
  intros a.
  assert (Hm : mounted (sphere a)) by (split; eexists; reflexivity).
  assert (Hticks :
    Forall (fun tick => (resetStartTime (sphere a) <= fst tick)%Z)
           [(6100, Fin 0); (6300, Fin 0); (6500, Fin 0); (6600, Fin 0)]%Z).
  { repeat constructor; discriminate. }
  destruct (reset_decay _ (store a) (sphere a) 2 Hm eq_refl eq_refl eq_refl
              Hticks) as [_ Hlast].
  refine (proj1 (proj2 (proj2
            (Hlast [(6100, Fin 0); (6300, Fin 0)]%Z 6500%Z (Fin 0)
                   [(6600, Fin 0)]%Z eq_refl _ _)))).
  - repeat constructor.
  - discriminate.
Defined.

(** ** The store *)

Lemma breathingTarget_not_rest (i h e t : number) :
  fst (breathingTarget i h e t) <> Rest.
Proof.
  unfold breathingTarget.
  destruct (t <? i)%num; [discriminate|].
  destruct (t <? i + h)%num; discriminate.
Qed.

(** A frame leaves the store alone or, in a running session, reports a
    phase other than rest. *)
Lemma useFrame_store (now : Z) (delta : number) (st : BreathingState)
    (c : BreathingSphere) :
  fst (useFrame now delta st c) = st
  \/ exists phase,
       phase <> Rest /\ fst (useFrame now delta st c) = setCurrentPhase phase st.
Proof.
  unfold useFrame.
  destruct (sphereRef c); [|now left].
  destruct (outerSphereRef c); [|now left].
  destruct (isResetting c); [now left|].
  destruct (isBreathing st); [|now left].
  cbn [negb]. right.
  pose proof (breathingTarget_not_rest (inhaleTime st) (holdTime st)
                (exhaleTime st) (cycleTime now st c)) as Hne.
  destruct (breathingTarget _ _ _ _) as [phase target].
  exists phase. now split.
Qed.

Lemma step_running_not_rest (e : Event) (a : App) :
  (isBreathing (store a) = true -> currentPhase (store a) <> Rest) ->
  isBreathing (store (step e a)) = true ->
  currentPhase (store (step e a)) <> Rest.
Proof.
  intros Hinv. destruct e; cbn [step store]; try assumption; try discriminate.
  destruct (useFrame_store now delta (store a) (sphere a))
    as [Hsame | (phase & Hne & Hset)];
    destruct (useFrame now delta (store a) (sphere a)) as [st c];
    cbn [fst store] in *; subst st; [assumption | now intros _].
Qed.

Lemma run_running_not_rest (events : list Event) :
  forall a,
    (isBreathing (store a) = true -> currentPhase (store a) <> Rest) ->
    isBreathing (store (run events a)) = true ->
    currentPhase (store (run events a)) <> Rest.
Proof.
  induction events as [|e events IH]; intros a Hinv; [exact Hinv|].
  apply (IH (step e a)). now apply step_running_not_rest.
Qed.

(** C4, as the store has it.  In every reachable state a running session
    is never at rest.  [startBreathing] and [stopBreathing] establish
    that the phase is rest exactly when the session is stopped, and
    [setTheme], [setInhaleTime], [setHoldTime], [setExhaleTime] and
    [setElapsedTime] preserve it; [setBreathingPattern] sets the phase to
    inhale and leaves [isBreathing] as it was. *)
Theorem running_never_at_rest :
  (forall a, reachable a ->
     isBreathing (store a) = true -> currentPhase (store a) <> Rest)
  /\ (forall st,
        rest_iff_stopped (startBreathing st)
        /\ rest_iff_stopped (stopBreathing st))
  /\ (forall st t time,
        rest_iff_stopped st ->
        rest_iff_stopped (setTheme t st)
        /\ rest_iff_stopped (setInhaleTime time st)
        /\ rest_iff_stopped (setHoldTime time st)
        /\ rest_iff_stopped (setExhaleTime time st)
        /\ rest_iff_stopped (setElapsedTime time st))
  /\ (forall st i h e,
        currentPhase (setBreathingPattern i h e st) = Inhale
        /\ isBreathing (setBreathingPattern i h e st) = isBreathing st).
Proof.
  split; [|split; [|split]].
  - intros a (now & w & events & ->).
    apply run_running_not_rest. discriminate.
  - intros st. split; split; discriminate || reflexivity.
  - intros st t time Hst. repeat split; apply Hst.
  - intros st i h e. split; reflexivity.
Qed.

Lemma running_never_at_rest_witness :
  currentPhase
    (store (run [StartBreathing 0; Frame 5000 (Fin 0)]
                (mount 0 (Fin 1024)))) <> Rest.
Proof.
  apply (proj1 running_never_at_rest).
  - exists 0%Z, (Fin 1024), [StartBreathing 0; Frame 5000 (Fin 0)].
    reflexivity.
  - vm_compute. reflexivity.
Defined.

(** C4, as stated, fails: once the reset animation of the mount is over,
    choosing a pattern while stopped leaves the phase at inhale with the
    session not running. *)
Lemma rest_iff_stopped_fails :
  let a := run [Frame 600 (Fin 0);
                SetBreathingPattern (Fin 4) (Fin 7) (Fin 8)]
               (mount 0 (Fin 1024)) in
  reachable a
  /\ isResetting (sphere a) = false
  /\ isBreathing (store a) = false
  /\ currentPhase (store a) = Inhale
  /\ ~ rest_iff_stopped (store a).
Proof.
  intros a. split; [|split; [|split; [|split]]].
  - exists 0%Z, (Fin 1024),
      [Frame 600 (Fin 0); SetBreathingPattern (Fin 4) (Fin 7) (Fin 8)].
    reflexivity.
  - vm_compute. reflexivity.
  - reflexivity.
  - reflexivity.
  - intros [_ H]. specialize (H eq_refl). discriminate.
Qed.

(** C9. [stopBreathing] sets [isBreathing] to false and the phase to rest
    and leaves the elapsed time, the three pattern times and the theme as
    they were; the elapsed time goes back to zero in the timer's effect,
    which changes nothing else. *)
Theorem stopBreathing_frame (st : BreathingState) :
  isBreathing (stopBreathing st) = false
  /\ currentPhase (stopBreathing st) = Rest
  /\ elapsedTime (stopBreathing st) = elapsedTime st
  /\ inhaleTime (stopBreathing st) = inhaleTime st
  /\ holdTime (stopBreathing st) = holdTime st
  /\ exhaleTime (stopBreathing st) = exhaleTime st
  /\ theme (stopBreathing st) = theme st
  /\ BreathingTimer.effect (stopBreathing st) =
       setElapsedTime (Fin 0) (stopBreathing st).
Proof. repeat split. Qed.

(** ** The two pattern-name lookups *)

(** C10. For every pattern in the store the name the timer shows is the
    name [getPatternInfo] returns for the same three times; for the four
    presets that name is Calm, Focus, Balance and Deep. *)
Theorem pattern_names_agree `{Host} (st : BreathingState) :
  BreathingTimer.patternText st =
    StatsPage.info_name
      (StatsPage.getPatternInfo (inhaleTime st) (holdTime st) (exhaleTime st))
  /\ BreathingTimer.patternText
       (setBreathingPattern (Fin 4) (Fin 4) (Fin 6) st) = "Calm"
  /\ BreathingTimer.patternText
       (setBreathingPattern (Fin 4) (Fin 7) (Fin 8) st) = "Focus"
  /\ BreathingTimer.patternText
       (setBreathingPattern (Fin 4) (Fin 4) (Fin 4) st) = "Balance"
  /\ BreathingTimer.patternText
       (setBreathingPattern (Fin 6) (Fin 2) (Fin 7) st) = "Deep".
Proof.
  split; [|repeat split].
  unfold BreathingTimer.patternText, StatsPage.getPatternInfo,
    BreathingTimer.BREATHING_PATTERNS, StatsPage.BREATHING_PATTERNS.
  cbn [find BreathingTimer.inhale BreathingTimer.hold BreathingTimer.exhale
       StatsPage.inhale StatsPage.hold StatsPage.exhale].
  repeat (destruct (_ && _); [reflexivity|]).
  reflexivity.
Qed.

(** ** A cycle of length zero *)

Lemma Math_clamp_Fin (lo hi x : Q) :
  lo <= hi ->
  exists y,
    Math_max (Fin lo) (Math_min (Fin hi) (Fin x)) = Fin y
    /\ lo <= y /\ y <= hi.
Proof.
  intros Hlohi. rewrite Math_min_Fin. cbn [Math_max Num.lt].
  destruct (Num.Qltb x hi) eqn:E1.
  - apply Qltb_lt in E1. destruct (Num.Qltb lo x) eqn:E2.
    + apply Qltb_lt in E2. eexists; split; [reflexivity | lra].
    + eexists; split; [reflexivity | lra].
  - apply Qltb_ge in E1. destruct (Num.Qltb lo hi) eqn:E2.
    + eexists; split; [reflexivity | lra].
    + eexists; split; [reflexivity | lra].
Qed.

(** C5, as the code has it.  [startBreathing] starts the session whatever
    the pattern, and a running frame takes the remainder by the cycle
    length without looking at it: when that length is zero the cycle time
    is [NaN], the phase reported is exhale and the scale written is [NaN].
    A cycle of length zero is kept out of the store by its callers: the
    custom form clamps inhale and exhale into [1, 10] and hold into
    [0, 10], the pattern menu installs presets of positive cycle length,
    and neither changes the pattern of a running session. *)
Theorem zero_cycle_not_guarded :
  (forall st,
     isBreathing (startBreathing st) = true
     /\ totalCycleTime (startBreathing st) = totalCycleTime st)
  /\ (forall now delta st c inner outer,
        sphereRef c = Some inner -> outerSphereRef c = Some outer ->
        isResetting c = false -> isBreathing st = true ->
        totalCycleTime st =n= Fin 0 ->
        cycleTime now st c = NaN
        /\ currentPhase (fst (useFrame now delta st c)) = Exhale
        /\ scale (snd (useFrame now delta st c)) = NaN)
  /\ (forall i h e st,
        isBreathing st = false ->
        exists i' h' e',
          let st' := CustomBreathing.handleSubmit
                       {| CustomBreathing.inhale := Fin i;
                          CustomBreathing.hold := Fin h;
                          CustomBreathing.exhale := Fin e |} st in
          inhaleTime st' = Fin i' /\ holdTime st' = Fin h'
          /\ exhaleTime st' = Fin e'
          /\ 1 <= i' <= 10 /\ 0 <= h' <= 10 /\ 1 <= e' <= 10
          /\ totalCycleTime st' = Fin (i' + h' + e'))
  /\ (forall pattern st,
        In pattern Controls.BREATHING_PATTERNS ->
        isBreathing st = false ->
        exists z,
          totalCycleTime (Controls.handlePatternSelect pattern st) = Fin z
          /\ 0 < z)
  /\ (forall custom pattern st,
        isBreathing st = true ->
        CustomBreathing.handleSubmit custom st = st
        /\ Controls.handlePatternSelect pattern st = st).
Proof.
  split; [|split; [|split; [|split]]].
  - intros st. split; reflexivity.
  - intros now delta st c inner outer Hin Hout Hidle Hrun Hzero.
    assert (Htime : cycleTime now st c = NaN).
    { unfold cycleTime. rewrite elapsed_Fin.
      destruct (totalCycleTime st) as [| |z]; try contradiction.
      now apply rem_zero. }
    split; [exact Htime|].
    rewrite (useFrame_running_phase now delta st c inner outer) by assumption.
    rewrite (useFrame_running_scale now delta st c inner outer) by assumption.
    rewrite Htime. split; reflexivity.
  - intros i h e st Hstop.
    destruct (Math_clamp_Fin 1 10 i) as (i' & Hi' & Hir); [discriminate|].
    destruct (Math_clamp_Fin 0 10 h) as (h' & Hh' & Hhr); [discriminate|].
    destruct (Math_clamp_Fin 1 10 e) as (e' & He' & Her); [discriminate|].
    exists i', h', e'.
    unfold CustomBreathing.handleSubmit. rewrite Hstop.
    cbn [CustomBreathing.inhale CustomBreathing.hold CustomBreathing.exhale].
    rewrite Hi', Hh', He'. cbv zeta. unfold totalCycleTime.
    cbn [inhaleTime holdTime exhaleTime setBreathingPattern Num.add].
    repeat split; try reflexivity; lra.
  - intros pattern st Hin Hstop.
    unfold Controls.handlePatternSelect. rewrite Hstop.
    cbn in Hin.
    destruct Hin as [<- | [<- | [<- | [<- | []]]]];
      (eexists; split; [reflexivity | reflexivity]).
  - intros custom pattern st Hrun.
    unfold CustomBreathing.handleSubmit, Controls.handlePatternSelect.
    now rewrite Hrun.
Qed.

Lemma zero_cycle_not_guarded_witness :
  let st := startBreathing
              (setBreathingPattern (Fin 0) (Fin 0) (Fin 0) useBreathingStore) in
  let c := isBreathingEffect 0 st (attach newSphere) in
  scale (snd (useFrame 1000 (Fin 0) st c)) = NaN.
Proof.
  intros st c.
  refine (proj2 (proj2
            (proj1 (proj2 zero_cycle_not_guarded) 1000%Z (Fin 0) st c
               {| meshScale := Fin 1; rotationY := Fin 0 |}
               {| meshScale := Fin 1; rotationY := Fin 0 |}
               eq_refl eq_refl eq_refl eq_refl _))).
  reflexivity.
Defined.

(** C5, as stated, fails: with the pattern 0-0-0 the session starts, and
    the frame one second later has taken the remainder by zero: no error is
    reported, the phase is exhale and the scale is [NaN]. *)
Lemma zero_cycle_session_starts :
  let before := run [SetBreathingPattern (Fin 0) (Fin 0) (Fin 0);
                     StartBreathing 0]
                    (mount 0 (Fin 1024)) in
  let after := step (Frame 1000 (Fin 0)) before in
  totalCycleTime (store before) =n= Fin 0
  /\ isBreathing (store before) = true
  /\ cycleTime 1000 (store before) (sphere before) = NaN
  /\ isBreathing (store after) = true
  /\ currentPhase (store after) = Exhale
  /\ scale (sphere after) = NaN.
Proof. vm_compute. repeat split. Qed.

(** ** Reading the persisted sessions *)

Lemma truthy_nonempty (text : string) : text <> EmptyString -> truthy text = true.
Proof.
  intros Hne. unfold truthy. destruct (String.eqb_spec text EmptyString); [contradiction|].
  reflexivity.
Qed.

(** C8, as the code has it.  A missing item or an empty string is read as
    no sessions.  Any other text goes to [JSON.parse] with nothing to catch
    what it throws: on a text that is not JSON the effect of the statistics
    page throws a [SyntaxError] instead of setting the history, and the stop
    handler throws it before it writes the session and before it stops the
    session.  On a JSON text the effect stores the parsed value as it
    is. *)
Theorem session_read_not_guarded `{Host} (localStorage : Storage)
    (sessions : JSON.value) (uuid date : string) (st : BreathingState) :
  (localStorage !! "breathing-sessions" = None
   \/ localStorage !! "breathing-sessions" = Some EmptyString ->
   StatsPage.effect localStorage sessions = Normal sessions
   /\ StartButton.handleStop uuid date localStorage st =
        Normal (<["breathing-sessions" :=
                   JSON_stringify
                     (JSON.JArray [StartButton.newSession uuid date st])]>
                  localStorage,
                stopBreathing st))
  /\ (forall text,
        localStorage !! "breathing-sessions" = Some text -> text <> EmptyString ->
        JSON_parse text = Throw SyntaxError ->
        StatsPage.effect localStorage sessions = Throw SyntaxError
        /\ StartButton.handleStop uuid date localStorage st =
             Throw SyntaxError)
  /\ (forall text parsed,
        localStorage !! "breathing-sessions" = Some text -> text <> EmptyString ->
        JSON_parse text = Normal parsed ->
        StatsPage.effect localStorage sessions = Normal parsed).
Proof.
  unfold StatsPage.effect, StartButton.handleStop.
  split; [|split].
  - intros [-> | ->]; split; reflexivity.
  - intros text -> Hne Hbad. rewrite (truthy_nonempty text Hne), Hbad.
    split; reflexivity.
  - intros text parsed -> Hne Hok. rewrite (truthy_nonempty text Hne), Hok.
    reflexivity.
Qed.

Lemma session_read_not_guarded_witness :
  StatsPage.effect {["breathing-sessions" := "[1,"]} (JSON.JArray [])
    = Throw SyntaxError.
Proof.
  refine (proj1 (proj1 (proj2
            (@session_read_not_guarded
               {| Number_toString := fun _ => EmptyString;
                  JSON_stringify := fun _ => EmptyString |}
               {["breathing-sessions" := "[1,"]} (JSON.JArray [])
               EmptyString EmptyString useBreathingStore))
            "[1," _ _ _)).
  - apply lookup_singleton_eq.
  - discriminate.
  - vm_compute. reflexivity.
Defined.

(** C8, as stated, fails: with the text of an unfinished object under the
    key, the effect of the statistics page does not end with an empty
    history, it throws. *)
Lemma corrupted_sessions_throw :
  let localStorage : Storage := {["breathing-sessions" := "{"]} in
  JSON_parse "{" = Throw SyntaxError
  /\ StatsPage.effect localStorage StatsPage.initial_sessions =
       Throw SyntaxError
  /\ StatsPage.effect localStorage StatsPage.initial_sessions <>
       Normal (JSON.JArray []).
Proof.
  intros localStorage.
  assert (Hparse : JSON_parse "{" = Throw SyntaxError) by (vm_compute; reflexivity).
  assert (Heffect :
    StatsPage.effect localStorage StatsPage.initial_sessions =
      Throw SyntaxError).
  { unfold StatsPage.effect, localStorage.
    rewrite lookup_singleton_eq. cbn [truthy String.eqb negb].
    now rewrite Hparse. }
  split; [exact Hparse|]. split; [exact Heffect|].
  rewrite Heffect. discriminate.
Qed.

(** * Further properties of the driver *)

(** ** What a frame leaves alone *)

(** X5. A frame never changes the pattern, the running flag, the elapsed
    time or the theme in the store, nor the start time, the reset start
    time, the window class or the attachment of the meshes in the
    component; it changes the phase only in a running session. *)
Theorem useFrame_frame (now : Z) (delta : number) (st : BreathingState)
    (c : BreathingSphere) :
  let st' := fst (useFrame now delta st c) in
  let c' := snd (useFrame now delta st c) in
  inhaleTime st' = inhaleTime st /\ holdTime st' = holdTime st
  /\ exhaleTime st' = exhaleTime st /\ isBreathing st' = isBreathing st
  /\ elapsedTime st' = elapsedTime st /\ theme st' = theme st
  /\ startTime c' = startTime c /\ resetStartTime c' = resetStartTime c
  /\ isMobile c' = isMobile c
  /\ (is_Some (sphereRef c') <-> is_Some (sphereRef c))
  /\ (is_Some (outerSphereRef c') <-> is_Some (outerSphereRef c))
  /\ (currentPhase st' <> currentPhase st ->
      isBreathing st = true /\ isResetting c = false)
  /\ (isResetting c = false -> isResetting c' = false).
Proof.
  unfold useFrame.
  destruct (sphereRef c) as [inner|] eqn:Hin;
    [|cbn; rewrite Hin; intuition congruence].
  destruct (outerSphereRef c) as [outer|] eqn:Hout;
    [|cbn; rewrite Hin, Hout; intuition congruence].
  destruct (isResetting c) eqn:Hreset.
  - cbn. repeat split; intros; try congruence; eauto.
  - destruct (isBreathing st) eqn:Hrun; cbn [negb].
    + destruct (breathingTarget _ _ _ _) as [phase target]. cbn.
      rewrite Hrun. repeat split; intros; eauto.
    + cbn. rewrite Hin, Hout, Hrun, Hreset.
      repeat split; intros; try congruence; eauto.
Qed.

Lemma useFrame_frame_witness :
  let st := startBreathing useBreathingStore in
  let c := isBreathingEffect 0 st (attach newSphere) in
  isBreathing st = true /\ isResetting c = false.
Proof.
  intros st c.
  destruct (useFrame_frame 5000 (Fin 0) st c)
    as (_ & _ & _ & _ & _ & _ & _ & _ & _ & _ & _ & Hphase & _).
  apply Hphase. vm_compute. discriminate.
Defined.

(** ** The scale over whole runs *)

Lemma useFrame_unmounted (now : Z) (delta : number) (st : BreathingState)
    (c : BreathingSphere) :
  sphereRef c = None \/ outerSphereRef c = None ->
  useFrame now delta st c = (st, c).
Proof.
  unfold useFrame. intros [-> | ->]; [reflexivity|].
  now destruct (sphereRef c).
Qed.

Lemma mounted_or_not (c : BreathingSphere) :
  mounted c \/ sphereRef c = None \/ outerSphereRef c = None.
Proof.
  unfold mounted.
  destruct (sphereRef c); [|now right; left].
  destruct (outerSphereRef c); [|now right; right].
  left. split; eexists; reflexivity.
Qed.

(** The scale a frame writes stays between 1 and 2. *)
Lemma useFrame_scale_range (clock now : Z) (delta : number) (a : App) :
  run_invariant clock a -> (clock <= now)%Z ->
  exists s,
    scale (snd (useFrame now delta (store a) (sphere a))) = Fin s
    /\ 1 <= s /\ s <= 2.
Proof.
  intros (Hvalid & (s & Hs & Hlo & Hhi) & Hstart & Hreset) Hnow.
  destruct (mounted_or_not (sphere a)) as [Hm | Hun].
  - destruct (isResetting (sphere a)) eqn:Hres.
    + destruct (useFrame_resetting now delta (store a) (sphere a) s Hm Hres Hs)
        as (p & Hp & _ & _ & _ & Hs' & _).
      destruct (resetProgress_range now (sphere a)) as (p' & Hp' & Hle & Hge & _).
      rewrite Hp in Hp'. injection Hp' as <-.
      specialize (Hreset eq_refl). specialize (Hge ltac:(lia)).
      eexists. split; [exact Hs'|]. split; nra.
    + destruct (isBreathing (store a)) eqn:Hrun.
      * destruct Hm as [[inner Hin] [outer Hout]].
        destruct Hvalid as (i & h & e & Hi & Hh & He & Hipos & Hhpos & Hepos).
        rewrite (useFrame_running_scale now delta (store a) (sphere a)
                   inner outer Hin Hout Hres Hrun).
        destruct (cycleTime_range now (store a) (sphere a) i h e Hi Hh He)
          as (t & Ht & H0 & H1); [lra | specialize (Hstart eq_refl); lia |].
        destruct (targetScale_range i h e t Hipos Hhpos Hepos H0 H1)
          as (tg & Htg & Htlo & Hthi).
        rewrite Hi, Hh, He, Ht, Htg, maxScale_Fin, Math_min_Fin.
        eexists. split; [reflexivity|].
        destruct (isMobile (sphere a)); destruct (Num.Qltb _ tg); lra.
      * rewrite (useFrame_idle now delta _ _ Hres Hrun). eauto.
  - rewrite (useFrame_unmounted now delta _ _ Hun). eauto.
Qed.

Lemma valid_pattern_fields (st st' : BreathingState) :
  inhaleTime st' = inhaleTime st -> holdTime st' = holdTime st ->
  exhaleTime st' = exhaleTime st -> valid_pattern st -> valid_pattern st'.
Proof.
  intros Hi Hh He (i & h & e & H). exists i, h, e.
  rewrite Hi, Hh, He. exact H.
Qed.

Lemma frame_keeps_store_and_times (now : Z) (delta : number)
    (st : BreathingState) (c : BreathingSphere) :
  (valid_pattern st -> valid_pattern (fst (useFrame now delta st c)))
  /\ isBreathing (fst (useFrame now delta st c)) = isBreathing st
  /\ startTime (snd (useFrame now delta st c)) = startTime c
  /\ resetStartTime (snd (useFrame now delta st c)) = resetStartTime c
  /\ (isResetting (snd (useFrame now delta st c)) = true ->
      isResetting c = true).
Proof.
  unfold useFrame.
  destruct (sphereRef c); [|intuition auto].
  destruct (outerSphereRef c); [|intuition auto].
  destruct (isResetting c) eqn:Hres; [cbn; intuition auto|].
  destruct (isBreathing st) eqn:Hrun; cbn [negb];
    [|cbn; rewrite Hres, Hrun; intuition auto].
  destruct (breathingTarget _ _ _ _). cbn. rewrite Hrun.
  repeat split; auto.
Qed.

Lemma step_run_invariant (clock : Z) (ev : Event) (a : App) :
  run_invariant clock a -> keeps_pattern_valid ev ->
  (clock <= clock_after clock ev)%Z ->
  run_invariant (clock_after clock ev) (step ev a).
Proof.
  intros Hinv Hev Hclock.
  pose proof Hinv as (Hvalid & Hscale & Hstart & Hreset).
  assert (Hsame : forall st',
            valid_pattern st' -> isBreathing st' = isBreathing (store a) ->
            run_invariant clock {| store := st'; sphere := sphere a |}).
  { intros st' Hv Hb. unfold run_invariant. cbn [store sphere].
    rewrite Hb. tauto. }
  destruct ev as [i h e | t | now | now | time | time | time | time
                 | now delta | w];
    unfold clock_after in *; cbn [event_time step] in *.
  - destruct i as [| |i]; try contradiction.
    destruct h as [| |h]; try contradiction.
    destruct e as [| |e]; try contradiction.
    cbn in Hev. apply Hsame; [|reflexivity]. exists i, h, e. cbn. intuition auto.
  - apply Hsame; [|reflexivity].
    eapply valid_pattern_fields; [..|exact Hvalid]; reflexivity.
  - unfold run_invariant, rerender. cbn [store sphere].
    split; [eapply valid_pattern_fields; [..|exact Hvalid]; reflexivity|].
    cbn [isBreathing startBreathing].
    destruct (isBreathing (store a)) eqn:Hrun; cbn [Bool.eqb].
    + split; [exact Hscale|]. split.
      * intros _. specialize (Hstart eq_refl). lia.
      * intros Hres. specialize (Hreset Hres). lia.
    + unfold isBreathingEffect. cbn.
      split; [exact Hscale|]. split; [lia | discriminate].
  - unfold run_invariant, rerender. cbn [store sphere].
    split; [eapply valid_pattern_fields; [..|exact Hvalid]; reflexivity|].
    cbn [isBreathing stopBreathing].
    destruct (isBreathing (store a)) eqn:Hrun; cbn [Bool.eqb].
    + unfold isBreathingEffect. cbn [isBreathing stopBreathing].
      destruct (sphereRef (sphere a)), (outerSphereRef (sphere a)); cbn;
        (split; [exact Hscale|]); (split; [discriminate|]);
        try lia; intros Hres; specialize (Hreset Hres); lia.
    + split; [exact Hscale|]. split; [discriminate|].
      intros Hres. specialize (Hreset Hres). lia.
  - destruct time as [| |i]; try contradiction. cbn in Hev.
    apply Hsame; [|reflexivity].
    destruct Hvalid as (_ & h & e & _ & Hh & He & _ & Hhpos & Hepos).
    exists i, h, e. cbn. intuition auto.
  - destruct time as [| |h]; try contradiction. cbn in Hev.
    apply Hsame; [|reflexivity].
    destruct Hvalid as (i & _ & e & Hi & _ & He & Hipos & _ & Hepos).
    exists i, h, e. cbn. intuition auto.
  - destruct time as [| |e]; try contradiction. cbn in Hev.
    apply Hsame; [|reflexivity].
    destruct Hvalid as (i & h & _ & Hi & Hh & _ & Hipos & Hhpos & _).
    exists i, h, e. cbn. intuition auto.
  - apply Hsame; [|reflexivity].
    eapply valid_pattern_fields; [..|exact Hvalid]; reflexivity.
  - pose proof (useFrame_scale_range clock now delta a Hinv Hclock) as Hs.
    destruct (frame_keeps_store_and_times now delta (store a) (sphere a))
      as (Hv & Hb & Hst & Hrs & Hres).
    destruct (useFrame now delta (store a) (sphere a)) as [st' c'].
    cbn [fst snd] in *. unfold run_invariant. cbn [store sphere].
    split; [auto|]. split; [exact Hs|]. split.
    + rewrite Hb, Hst. intros Hrun. specialize (Hstart Hrun). lia.
    + rewrite Hrs. intros Hr. specialize (Hreset (Hres Hr)). lia.
  - unfold run_invariant. cbn [store sphere checkMobile scale isResetting
                               startTime resetStartTime].
    tauto.
Qed.

Lemma run_run_invariant (events : list Event) :
  forall clock a,
    run_invariant clock a -> Forall keeps_pattern_valid events ->
    in_time_order clock events ->
    exists clock', run_invariant clock' (run events a).
Proof.
  induction events as [|ev events IH]; intros clock a Hinv Hvalid Horder.
  - now exists clock.
  - inversion Hvalid as [|? ? Hev Hrest]; subst.
    cbn [run fold_left]. apply (IH (clock_after clock ev)); [|exact Hrest|].
    + apply step_run_invariant; [assumption..|].
      unfold clock_after. cbn [in_time_order] in Horder.
      destruct (event_time ev); [tauto | lia].
    + unfold clock_after. cbn [in_time_order] in Horder.
      destruct (event_time ev); tauto.
Qed.

Lemma mount_run_invariant (now : Z) (innerWidth : number) :
  run_invariant now (mount now innerWidth).
Proof.
  unfold run_invariant, mount. cbn. repeat split.
  - exists 4, 4, 6. repeat split; reflexivity || discriminate.
  - exists 1. repeat split; discriminate.
  - discriminate.
  - lia.
Qed.

(** X1. From the mount on, whatever the window width, over any run of
    events whose pattern updates are valid and whose clock readings never go
    back, the scale is a rational between 1 and 2: while running, while
    resetting and at rest. *)
Theorem scale_always_between_1_and_2 (mounted_at : Z) (innerWidth : number)
    (events : list Event) :
  Forall keeps_pattern_valid events ->
  in_time_order mounted_at events ->
  exists s,
    scale (sphere (run events (mount mounted_at innerWidth))) = Fin s
    /\ 1 <= s /\ s <= 2.
Proof.
  intros Hvalid Horder.
  destruct (run_run_invariant events mounted_at (mount mounted_at innerWidth)
              (mount_run_invariant mounted_at innerWidth) Hvalid Horder)
    as (clock & _ & Hs & _).
  exact Hs.
Qed.

Lemma scale_always_between_1_and_2_witness :
  exists s,
    scale (sphere (run [SetBreathingPattern (Fin 4) (Fin 7) (Fin 8);
                        StartBreathing 100; Frame 5100 (Fin 0);
                        StopBreathing 6000; Frame 6200 (Fin 0)]
                       (mount 0 (Fin 390)))) = Fin s
    /\ 1 <= s /\ s <= 2.
Proof.
  apply scale_always_between_1_and_2.
  - repeat constructor; reflexivity || discriminate.
  - cbn. repeat split; discriminate.
Defined.

(** ** The meshes and [scale.current] *)

Lemma useFrame_meshes_follow (now : Z) (delta : number) (st : BreathingState)
    (c : BreathingSphere) :
  meshes_follow_scale c ->
  meshes_follow_scale (snd (useFrame now delta st c)).
Proof.
  intros (inner & outer & Hin & Hout & Hscale & Hrot & Houter).
  unfold useFrame. rewrite Hin, Hout.
  destruct (isResetting c).
  - cbn. eexists _, _. cbn. repeat split; auto.
  - destruct (isBreathing st); cbn [negb].
    + destruct (breathingTarget _ _ _ _). cbn.
      eexists _, _. cbn. repeat split; auto.
    + cbn. exists inner, outer. auto.
Qed.

Lemma isBreathingEffect_meshes_follow (now : Z) (st : BreathingState)
    (c : BreathingSphere) :
  meshes_follow_scale c -> meshes_follow_scale (isBreathingEffect now st c).
Proof.
  intros (inner & outer & Hin & Hout & H).
  unfold isBreathingEffect. rewrite Hin, Hout.
  destruct (isBreathing st); exists inner, outer; cbn; auto.
Qed.

Lemma step_meshes_follow (ev : Event) (a : App) :
  meshes_follow_scale (sphere a) -> meshes_follow_scale (sphere (step ev a)).
Proof.
  intros H. destruct ev; cbn [step sphere]; try assumption.
  - unfold rerender. destruct (Bool.eqb _ _); [assumption|].
    now apply isBreathingEffect_meshes_follow.
  - unfold rerender. destruct (Bool.eqb _ _); [assumption|].
    now apply isBreathingEffect_meshes_follow.
  - pose proof (useFrame_meshes_follow now delta (store a) (sphere a) H) as H'.
    now destruct (useFrame now delta (store a) (sphere a)).
Qed.

Lemma run_meshes_follow (events : list Event) :
  forall a,
    meshes_follow_scale (sphere a) ->
    meshes_follow_scale (sphere (run events a)).
Proof.
  induction events as [|ev events IH]; intros a H; [exact H|].
  apply (IH (step ev a)). now apply step_meshes_follow.
Qed.

(** X6. In every reachable state both meshes are attached, the inner mesh
    has exactly the scale held in [scale.current] and has never been
    rotated, and the outer mesh is 1.2 times as large, or still at its
    initial size 1 while no frame has written a scale. *)
Theorem meshes_show_the_scale (a : App) :
  reachable a -> meshes_follow_scale (sphere a).
Proof.
  intros (now & w & events & ->). apply run_meshes_follow.
  unfold mount, isBreathingEffect. cbn.
  eexists _, _. cbn. repeat split. now right.
Qed.

Lemma meshes_show_the_scale_witness :
  meshes_follow_scale
    (sphere (run [StartBreathing 0; Frame 3000 (Fin (16 # 1000))]
                 (mount 0 (Fin 1024)))).
Proof.
  apply meshes_show_the_scale.
  exists 0%Z, (Fin 1024), [StartBreathing 0; Frame 3000 (Fin (16 # 1000))].
  reflexivity.
Defined.

(** ** Starting a session *)

Lemma Qfloor_small (x : Q) : x == 0 -> Qfloor x = 0%Z.
Proof. intros ->. reflexivity. Qed.

(** At the instant a session starts the cycle time is zero. *)
Lemma cycleTime_at_start (st : BreathingState) (c : BreathingSphere)
    (i h e : Q) :
  inhaleTime st = Fin i -> holdTime st = Fin h -> exhaleTime st = Fin e ->
  0 < i + h + e ->
  exists t, cycleTime (startTime c) st c = Fin t /\ t == 0.
Proof.
  intros Hi Hh He Hpos. unfold cycleTime.
  rewrite (totalCycleTime_Fin st i h e Hi Hh He), elapsed_Fin, rem_Fin by lra.
  eexists. split; [reflexivity|].
  rewrite Z.sub_diag.
  assert (Hz : inject_Z 0 / 1000 / (i + h + e) == 0) by (field; lra).
  rewrite trunc_nonneg by lra.
  rewrite (Qfloor_small _ Hz). field.
Qed.

(** X4. Starting a stopped session ends any reset animation in progress and
    records the start time; whatever scale the reset had reached, the frame
    at the start instant reports inhale and writes the scale 1. *)
Theorem start_cancels_reset (a : App) (now : Z) (delta : number) :
  isBreathing (store a) = false -> valid_pattern (store a) ->
  mounted (sphere a) ->
  let a' := step (StartBreathing now) a in
  isResetting (sphere a') = false
  /\ startTime (sphere a') = now
  /\ scale (sphere a') = scale (sphere a)
  /\ same_observation (observe (step (Frame now delta) a')) (Inhale, Fin 1).
Proof.
  intros Hstop (i & h & e & Hi & Hh & He & Hipos & Hhpos & Hepos)
         [[inner Hin] [outer Hout]] a'.
  assert (Hsphere : sphere a' = isBreathingEffect now (startBreathing (store a))
                                  (sphere a)).
  { subst a'. cbn [step sphere]. unfold rerender. now rewrite Hstop. }
  assert (Hreset : isResetting (sphere a') = false) by now rewrite Hsphere.
  assert (Hstart : startTime (sphere a') = now) by now rewrite Hsphere.
  repeat split; try assumption; try (now rewrite Hsphere).
  - unfold observe. cbn [step store fst].
    pose proof (useFrame_running_phase now delta (store a') (sphere a')
                  inner outer) as Hphase.
    destruct (useFrame now delta (store a') (sphere a')) as [st'' c''].
    cbn [fst store] in *. rewrite Hphase; try (now rewrite Hsphere); auto.
    destruct (cycleTime_at_start (store a') (sphere a') i h e Hi Hh He)
      as (t & Ht & Ht0); [lra|].
    rewrite Hstart in Ht. subst a'. cbn [step store] in *.
    cbn [inhaleTime holdTime exhaleTime startBreathing].
    rewrite Hi, Hh, He, Ht, breathingTarget_Fin by assumption.
    rewrite (proj2 (Qltb_lt t i)) by lra. reflexivity.
  - unfold observe. cbn [step sphere snd].
    pose proof (useFrame_running_scale now delta (store a') (sphere a')
                  inner outer) as Hscale.
    destruct (useFrame now delta (store a') (sphere a')) as [st'' c''].
    cbn [snd sphere] in *. rewrite Hscale; try (now rewrite Hsphere); auto.
    destruct (cycleTime_at_start (store a') (sphere a') i h e Hi Hh He)
      as (t & Ht & Ht0); [lra|].
    rewrite Hstart in Ht. subst a'. cbn [step store] in *.
    cbn [inhaleTime holdTime exhaleTime startBreathing].
    rewrite Hi, Hh, He, Ht, breathingTarget_Fin by assumption.
    rewrite (proj2 (Qltb_lt t i)) by lra. cbn [snd].
    rewrite maxScale_Fin, Math_min_Fin.
    assert (Hone : 1 + t / i == 1) by (rewrite Ht0; field; lra).
    destruct (isMobile _); destruct (Num.Qltb _ _) eqn:E; cbn;
      try exact Hone; apply Qltb_lt in E; lra.
Qed.

Lemma start_cancels_reset_witness :
  let a := run [StartBreathing 0; Frame 9000 (Fin 0); StopBreathing 9100;
                Frame 9200 (Fin 0)]
               (mount 0 (Fin 1024)) in
  isResetting (sphere a) = true
  /\ isResetting (sphere (step (StartBreathing 9300) a)) = false.
Proof.
  intros a. split; [vm_compute; reflexivity|].
  refine (proj1 (start_cancels_reset a 9300 (Fin 0) eq_refl _ _)).
  - exists 4, 4, 6. repeat split; reflexivity || discriminate.
  - split; eexists; reflexivity.
Defined.

(** ** The cap follows the window *)

(** X19. After a resize the cap of the next running frame follows the new
    width: in a window narrower than 768 the scale written is the target
    scale cut at 1.5, and from 768 on it is the target scale itself. *)
Theorem cap_follows_window (w i h e : Q) (now : Z) (delta : number)
    (a : App) (inner outer : Mesh) :
  0 < i -> 0 <= h -> 0 < e ->
  inhaleTime (store a) = Fin i -> holdTime (store a) = Fin h ->
  exhaleTime (store a) = Fin e -> isBreathing (store a) = true ->
  sphereRef (sphere a) = Some inner -> outerSphereRef (sphere a) = Some outer ->
  isResetting (sphere a) = false -> (startTime (sphere a) <= now)%Z ->
  let a' := step (Frame now delta) (step (Resize (Fin w)) a) in
  exists t target s,
    cycleTime now (store a) (sphere a) = Fin t
    /\ snd (breathingTarget (Fin i) (Fin h) (Fin e) (Fin t)) = Fin target
    /\ scale (sphere a') = Fin s
    /\ (w < 768 -> s <= 15 # 10 /\ s <= target
                   /\ (s == target \/ s == 15 # 10))
    /\ (768 <= w -> s == target).
Proof.
  intros Hi Hh He Hit Hht Het Hrun Hin Hout Hidle Hnow a'.
  destruct (cycleTime_range now (store a) (sphere a) i h e Hit Hht Het)
    as (t & Ht & H0 & H1); [lra | assumption |].
  destruct (targetScale_range i h e t Hi Hh He H0 H1)
    as (target & Htarget & Hlo & Hhi).
  set (c := checkMobile (Fin w) (sphere a)).
  assert (Hscale : scale (sphere a') =
                   Math_min (Fin target) (maxScale c)).
  { subst a'. cbn [step store sphere]. fold c.
    pose proof (useFrame_running_scale now delta (store a) c inner outer
                  Hin Hout Hidle Hrun) as Hs.
    destruct (useFrame now delta (store a) c) as [st' c'].
    cbn [snd sphere] in *. rewrite Hs.
    assert (Htime : cycleTime now (store a) c = Fin t) by exact Ht.
    now rewrite Hit, Hht, Het, Htime, Htarget. }
  assert (Hmobile : isMobile c = Num.Qltb w 768) by reflexivity.
  rewrite maxScale_Fin, Math_min_Fin, Hmobile in Hscale.
  exists t, target. eexists.
  split; [exact Ht|]. split; [exact Htarget|]. split; [exact Hscale|].
  split.
  - intros Hw. rewrite (proj2 (Qltb_lt w 768) Hw).
    destruct (Num.Qltb (15 # 10) target) eqn:E;
      [apply Qltb_lt in E | apply Qltb_ge in E];
      (split; [lra|]); (split; [lra|]); [right | left]; reflexivity.
  - intros Hw. rewrite (proj2 (Qltb_ge w 768) Hw).
    destruct (Num.Qltb 2 target) eqn:E;
      [apply Qltb_lt in E; lra | reflexivity].
Qed.

Lemma cap_follows_window_witness :
  let a := run [StartBreathing 0] (mount 0 (Fin 1024)) in
  exists t target s,
    cycleTime 5000 (store a) (sphere a) = Fin t
    /\ snd (breathingTarget (Fin 4) (Fin 4) (Fin 6) (Fin t)) = Fin target
    /\ scale (sphere (step (Frame 5000 (Fin 0))
                        (step (Resize (Fin 390)) a))) = Fin s
    /\ (390 < 768 -> s <= 15 # 10 /\ s <= target
                     /\ (s == target \/ s == 15 # 10))
    /\ (768 <= 390 -> s == target).
Proof.
  intros a.
  assert (H4 : 0 < 4) by reflexivity.
  assert (H4' : 0 <= 4) by discriminate.
  assert (H6 : 0 < 6) by reflexivity.
  assert (Hnow : (startTime (sphere a) <= 5000)%Z) by discriminate.
  exact (cap_follows_window 390 4 4 6 5000 (Fin 0) a
           {| meshScale := Fin 1; rotationY := Fin 0 |}
           {| meshScale := Fin 1; rotationY := Fin 0 |}
           H4 H4' H6 eq_refl eq_refl eq_refl eq_refl eq_refl eq_refl
           eq_refl Hnow).
Defined.

(** ** The cycle repeats *)












(** ** The target scale has no jumps *)

(** X3. Inside a cycle the target scale never rises faster than one unit
    per inhale time and never falls faster than one unit per exhale time,
    so it has no jump at the phase boundaries; it is 1 at the start of the
    cycle and, during exhale, exceeds 1 by the remaining part of the cycle
    divided by the exhale time, so it comes back to 1 at the wrap. *)
Theorem targetScale_rate_bounds (i h e t t' : Q) :
  0 < i -> 0 <= h -> 0 < e ->
  0 <= t -> t <= t' -> t' < i + h + e ->
  exists x x',
    snd (breathingTarget (Fin i) (Fin h) (Fin e) (Fin t)) = Fin x
    /\ snd (breathingTarget (Fin i) (Fin h) (Fin e) (Fin t')) = Fin x'
    /\ x' - x <= (t' - t) / i
    /\ x - x' <= (t' - t) / e
    /\ (t == 0 -> x == 1)
    /\ (i + h <= t' -> x' - 1 == (i + h + e - t') / e).
Proof.
  intros Hi Hh He Ht0 Htt Ht1.
  rewrite !breathingTarget_Fin by assumption.
  assert (Hu : 0 < / i) by now apply Qinv_lt_0_compat.
  assert (Hv : 0 < / e) by now apply Qinv_lt_0_compat.
  assert (Hiu : i * / i == 1) by (apply Qmult_inv_r; lra).
  assert (Hev : e * / e == 1) by (apply Qmult_inv_r; lra).
  unfold Qdiv.
  set (u := / i) in *. set (v := / e) in *.
  assert (P1 : 0 <= (t' - t) * u) by (apply Qmult_le_0_compat; lra).
  assert (P2 : 0 <= (t' - t) * v) by (apply Qmult_le_0_compat; lra).
  assert (P3 : 0 <= t * u) by (apply Qmult_le_0_compat; lra).
  assert (P4 : 0 <= (i + h + e - t') * v) by (apply Qmult_le_0_compat; lra).
  destruct (Num.Qltb t i) eqn:E1;
    [apply Qltb_lt in E1;
     assert (P5 : 0 <= (i - t) * u) by (apply Qmult_le_0_compat; lra);
     assert (P6 : 0 <= (i + h - t) * v) by (apply Qmult_le_0_compat; lra)
    |apply Qltb_ge in E1; destruct (Num.Qltb t (i + h)) eqn:E2;
     [apply Qltb_lt in E2;
      assert (P6 : 0 <= (i + h - t) * v) by (apply Qmult_le_0_compat; lra)
     |apply Qltb_ge in E2;
      assert (P7 : 0 <= (t - (i + h)) * v)
        by (apply Qmult_le_0_compat; lra)]];
  (destruct (Num.Qltb t' i) eqn:E3;
    [apply Qltb_lt in E3
    |apply Qltb_ge in E3;
     assert (P8 : 0 <= (t' - i) * u) by (apply Qmult_le_0_compat; lra);
     destruct (Num.Qltb t' (i + h)) eqn:E4;
     [apply Qltb_lt in E4
     |apply Qltb_ge in E4;
      assert (P9 : 0 <= (t' - (i + h)) * v)
        by (apply Qmult_le_0_compat; lra)]]);
  try lra;
  eexists _, _; (split; [reflexivity|]); (split; [reflexivity|]);
  cbn [snd]; repeat split; intros; try lra;
  match goal with H : t == 0 |- _ => rewrite H; ring end.
Qed.

Lemma targetScale_rate_bounds_witness :
  exists x x',
    snd (breathingTarget (Fin 4) (Fin 4) (Fin 6) (Fin 3)) = Fin x
    /\ snd (breathingTarget (Fin 4) (Fin 4) (Fin 6) (Fin 9)) = Fin x'
    /\ x' - x <= (9 - 3) / 4
    /\ x - x' <= (9 - 3) / 6
    /\ (3 == 0 -> x == 1)
    /\ (4 + 4 <= 9 -> x' - 1 == (4 + 4 + 6 - 9) / 6).
Proof.
  apply (targetScale_rate_bounds 4 4 6 3 9);
    reflexivity || discriminate.
Defined.

(** * Further properties of the displays and the forms *)

(** ** The clock text *)

Lemma floor_div_60 (n : Z) :
  Qfloor (inject_Z n / 60) = (n / 60)%Z.
Proof. symmetry. apply (Zdiv_Qdiv n 60). Qed.

(** X7. The session clock of the timer and [formatDuration] of the
    statistics page build the same text from the same number of seconds;
    for a whole non-negative number of seconds the two parts are the integer
    quotient and remainder by 60; and the seconds are written with at least
    two characters, zeros being put in front of a shorter text. *)
Theorem clock_text `{Host} :
  (forall st, TimeText.timeText st = TimeText.formatDuration (elapsedTime st))
  /\ (forall n, (0 <= n)%Z ->
        TimeText.minutes (Num.of_Z n) = Num.of_Z (n / 60)
        /\ TimeText.seconds (Num.of_Z n) =n= Num.of_Z (n mod 60))
  /\ (forall s,
        String.length (padStart 2 "0" s) = Nat.max 2 (String.length s)
        /\ (String.length s = 0%nat -> padStart 2 "0" s = "00")
        /\ (String.length s = 1%nat -> padStart 2 "0" s = "0" +:+ s)
        /\ ((2 <= String.length s)%nat -> padStart 2 "0" s = s)).
Proof.
  split; [reflexivity|]. split.
  - intros n Hn. split.
    + unfold TimeText.minutes, Math_floor, Num.of_Z.
      rewrite div_Fin by discriminate. now rewrite floor_div_60.
    + unfold TimeText.seconds, Num.of_Z. rewrite rem_Fin by discriminate.
      assert (Hq : 0 <= inject_Z n / 60).
      { apply Qle_shift_div_l; [reflexivity|].
        rewrite Qmult_0_l. change 0 with (inject_Z 0).
        now rewrite <- Zle_Qle. }
      rewrite trunc_nonneg by exact Hq. rewrite floor_div_60.
      cbn [Num.eqv]. rewrite (Z.mod_eq n 60) by discriminate.
      unfold Zminus. rewrite inject_Z_plus, inject_Z_opp, inject_Z_mult.
      ring.
  - intros s. destruct s as [|a [|b rest]]; cbn.
    + repeat split; try reflexivity; intros; lia || discriminate.
    + repeat split; try reflexivity; intros; lia || discriminate.
    + repeat split; try reflexivity; intros; try discriminate.
Qed.

Lemma clock_text_witness :
  TimeText.seconds (Num.of_Z 125) =n= Num.of_Z (125 mod 60).
Proof.
  refine (proj2 (proj1 (proj2
            (@clock_text {| Number_toString := fun _ => EmptyString;
                            JSON_stringify := fun _ => EmptyString |}))
            125%Z _)).
  discriminate.
Defined.

(** ** The session clock counts the seconds *)

Lemma interval_fields (st : BreathingState) :
  isBreathing (BreathingTimer.interval st) = isBreathing st
  /\ inhaleTime (BreathingTimer.interval st) = inhaleTime st
  /\ holdTime (BreathingTimer.interval st) = holdTime st
  /\ exhaleTime (BreathingTimer.interval st) = exhaleTime st
  /\ currentPhase (BreathingTimer.interval st) = currentPhase st.
Proof. repeat split. Qed.

(** X8. A session started from rest begins at zero elapsed seconds; after
    [n] firings of the one-second timer the elapsed time is [n], the
    session still runs with its pattern untouched, the effect leaves the
    running session alone, and once the session is stopped the effect puts
    the elapsed time back to zero. *)
Theorem timer_counts_seconds (n : nat) (st : BreathingState) :
  isBreathing st = false ->
  let started := startBreathing (BreathingTimer.effect st) in
  let after := Nat.iter n BreathingTimer.interval started in
  elapsedTime started = Fin 0
  /\ elapsedTime after =n= Num.of_Z (Z.of_nat n)
  /\ isBreathing after = true
  /\ inhaleTime after = inhaleTime st
  /\ holdTime after = holdTime st
  /\ exhaleTime after = exhaleTime st
  /\ BreathingTimer.effect after = after
  /\ elapsedTime (BreathingTimer.effect (stopBreathing after)) = Fin 0.
Proof.
  intros Hstop started after.
  assert (Hstart : elapsedTime started = Fin 0).
  { subst started. unfold BreathingTimer.effect. now rewrite Hstop. }
  assert (Hiter : exists q,
            elapsedTime after = Fin q /\ q == inject_Z (Z.of_nat n)
            /\ isBreathing after = true
            /\ inhaleTime after = inhaleTime st
            /\ holdTime after = holdTime st
            /\ exhaleTime after = exhaleTime st).
  { subst after. induction n as [|n IH].
    - exists 0. change (Nat.iter 0 BreathingTimer.interval started) with started.
      rewrite Hstart. subst started.
      unfold BreathingTimer.effect. rewrite Hstop. cbn.
      repeat split; reflexivity.
    - destruct IH as (q & Hq & Heq & Hrun & Hi & Hh & He).
      rewrite Nat.iter_succ.
      destruct (interval_fields (Nat.iter n BreathingTimer.interval started))
        as (Hb' & Hi' & Hh' & He' & _).
      rewrite Hb', Hi', Hh', He'.
      exists (q + 1). unfold BreathingTimer.interval at 1.
      cbn [elapsedTime setElapsedTime]. rewrite Hq. cbn [Num.add].
      repeat split; try assumption.
      rewrite Heq, Nat2Z.inj_succ. unfold Z.succ.
      rewrite inject_Z_plus. reflexivity. }
  destruct Hiter as (q & Hq & Heq & Hrun & Hi & Hh & He).
  repeat split; try assumption.
  - rewrite Hq. exact Heq.
  - unfold BreathingTimer.effect. now rewrite Hrun.
Qed.

Lemma timer_counts_seconds_witness :
  elapsedTime
    (Nat.iter 75 BreathingTimer.interval
       (startBreathing (BreathingTimer.effect useBreathingStore)))
  =n= Num.of_Z (Z.of_nat 75).
Proof.
  exact (proj1 (proj2 (timer_counts_seconds 75 useBreathingStore eq_refl))).
Defined.

(** ** The phase countdown *)

Lemma Qceiling_bounds (x : Q) :
  x <= inject_Z (Qceiling x) /\ inject_Z (Qceiling x) - 1 < x.
Proof.
  split; [apply Qle_ceiling|].
  pose proof (Qceiling_lt x) as H.
  unfold Z.sub in H. rewrite inject_Z_plus, inject_Z_opp in H. exact H.
Qed.

Lemma remaining_value (T : Q) (startTime now : Z) :
  CountdownTimer.remaining (Fin T) startTime now =
    Fin (inject_Z
           (Z.max 0 (Qceiling ((T + - inject_Z (now - startTime)) / 1000)))).
Proof.
  unfold CountdownTimer.remaining, Num.of_Z.
  cbn [Num.sub Num.neg Num.add]. rewrite div_Fin by discriminate.
  cbn [Math_ceil Math_max Num.lt].
  set (k := Qceiling _).
  destruct (Num.Qltb 0 (inject_Z k)) eqn:E.
  - apply Qltb_lt in E. change 0 with (inject_Z 0) in E.
    rewrite <- Zlt_Qlt in E. now rewrite Z.max_r by lia.
  - apply Qltb_ge in E. change 0 with (inject_Z 0) in E.
    rewrite <- Zle_Qle in E. now rewrite Z.max_l by lia.
Qed.

(** X9. The number the phase countdown shows is a whole number of seconds,
    never negative: the least one that covers what is left of the phase;
    it is zero exactly from the end of the phase on, where the timer stops
    itself, and it never goes up as time passes.  The rest phase lasts no
    time at all. *)
Theorem countdown_remaining (T : Q) (startTime now : Z) :
  let left := T - inject_Z (now - startTime) in
  exists k : Z,
    CountdownTimer.remaining (Fin T) startTime now = Num.of_Z k
    /\ (0 <= k)%Z
    /\ left <= 1000 * inject_Z k
    /\ (0 < left -> 1000 * (inject_Z k - 1) < left)
    /\ (left <= 0 <-> k = 0%Z)
    /\ (CountdownTimer.timer_stops (Fin T) startTime now = true <-> k = 0%Z)
    /\ (forall later, (now <= later)%Z ->
          exists k',
            CountdownTimer.remaining (Fin T) startTime later = Num.of_Z k'
            /\ (k' <= k)%Z)
    /\ (forall i h e,
          CountdownTimer.getPhaseDuration Rest i h e = Fin 0).
Proof.
  intros left.
  set (x := (T + - inject_Z (now - startTime)) / 1000).
  assert (Hx : left == 1000 * x) by (subst left x; field).
  destruct (Qceiling_bounds x) as [Hlo Hhi].
  exists (Z.max 0 (Qceiling x)).
  split; [apply remaining_value|]. split; [lia|].
  assert (Hmax0 : 0 <= inject_Z (Z.max 0 (Qceiling x))).
  { change 0 with (inject_Z 0). rewrite <- Zle_Qle. lia. }
  assert (Hmaxk : inject_Z (Qceiling x) <= inject_Z (Z.max 0 (Qceiling x))).
  { rewrite <- Zle_Qle. lia. }
  split; [lra|]. split.
  { intros Hpos.
    assert (Hk : (0 < Qceiling x)%Z).
    { rewrite Zlt_Qlt. change (inject_Z 0) with 0. lra. }
    rewrite Z.max_r by lia. lra. }
  assert (Hzero : left <= 0 <-> Z.max 0 (Qceiling x) = 0%Z).
  { split.
    - intros Hle.
      assert (Hk : (Qceiling x < 1)%Z).
      { rewrite Zlt_Qlt. change (inject_Z 1) with 1. lra. }
      lia.
    - intros Hk.
      assert (Hk' : (Qceiling x <= 0)%Z) by lia.
      rewrite Zle_Qle in Hk'. change (inject_Z 0) with 0 in Hk'. lra. }
  split; [exact Hzero|]. split.
  { unfold CountdownTimer.timer_stops. rewrite remaining_value.
    fold x. cbn [Num.strict_eq]. rewrite Qeq_bool_iff.
    change 0 with (inject_Z 0). rewrite inject_Z_injective. reflexivity. }
  split; [|reflexivity].
  intros later Hlater.
  exists (Z.max 0 (Qceiling ((T + - inject_Z (later - startTime)) / 1000))).
  split; [apply remaining_value|].
  apply Z.max_le_compat_l. apply Qceiling_resp_le.
  apply Qmult_le_compat_r; [|discriminate].
  assert (inject_Z (now - startTime) <= inject_Z (later - startTime))
    by (rewrite <- Zle_Qle; lia).
  lra.
Qed.

Lemma countdown_remaining_witness :
  exists k : Z,
    CountdownTimer.remaining (Fin 4000) 0 1500 = Num.of_Z k
    /\ (0 <= k)%Z
    /\ 4000 - inject_Z (1500 - 0) <= 1000 * inject_Z k.
Proof.
  destruct (countdown_remaining 4000 0 1500) as (k & H1 & H2 & H3 & _).
  exists k. repeat split; assumption.
Defined.

(** ** The countdown before a session *)

(** X10. The countdown shown before a session starts it after three
    seconds and not before: until then the store is as it was at the mount;
    from then on the session is running, the count stays at zero and
    further seconds do not start it again. *)
Theorem countdown_starts_session (st : BreathingState) (k : nat) :
  let state := Nat.iter k InitialCountdown.second
                 (InitialCountdown.mounted st) in
  ((k < 3)%nat -> snd state = st /\ fst state =n= Num.of_Z (3 - Z.of_nat k))
  /\ ((3 <= k)%nat -> snd state = startBreathing st /\ fst state =n= Fin 0).
Proof.
  intros state. subst state.
  assert (H3 : Nat.iter 3 InitialCountdown.second (InitialCountdown.mounted st)
               = (Fin (3 + - (1) + - (1) + - (1)), startBreathing st))
    by reflexivity.
  split.
  - intros Hk.
    destruct k as [|[|[|k]]]; [split; reflexivity.. | lia].
  - intros Hk.
    replace k with ((k - 3) + 3)%nat by lia.
    induction (k - 3)%nat as [|m IH].
    + cbn [Nat.add]. rewrite H3. split; reflexivity.
    + cbn [Nat.add]. rewrite Nat.iter_succ.
      destruct (Nat.iter (m + 3) _ _) as [count st'].
      cbn [fst snd] in *. destruct IH as [-> Hcount].
      destruct count as [| |q]; try contradiction.
      cbn [Num.eqv] in Hcount.
      unfold InitialCountdown.second. cbn [Num.strict_eq].
      rewrite (Qeq_bool_true q 0 Hcount). split; [reflexivity | exact Hcount].
Qed.

Lemma countdown_starts_session_witness :
  isBreathing
    (snd (Nat.iter 3 InitialCountdown.second
            (InitialCountdown.mounted useBreathingStore))) = true.
Proof.
  destruct (countdown_starts_session useBreathingStore 3) as [_ H].
  destruct (H ltac:(lia)) as [-> _]. reflexivity.
Defined.

(** ** Choosing a preset *)

(** X11. The pattern menu: the custom flag is on exactly when no preset
    matches the store's pattern; and after a preset has been chosen in a
    stopped session that preset is the active one, the custom flag is off,
    the theme is the preset's, and the menu header, the session timer and
    the statistics page all name the pattern by the preset's name. *)
Theorem preset_selection `{Host} :
  (forall st,
     ControlsView.isCustomPatternActive st = true
     <-> ControlsView.activePattern st = None)
  /\ (forall pattern st,
        In pattern Controls.BREATHING_PATTERNS -> isBreathing st = false ->
        let st' := Controls.handlePatternSelect pattern st in
        ControlsView.activePattern st' = Some pattern
        /\ ControlsView.isCustomPatternActive st' = false
        /\ theme st' = Controls.theme pattern
        /\ ControlsView.header st' =
             (Controls.name pattern, Controls.description pattern)
        /\ BreathingTimer.patternText st' = Controls.name pattern
        /\ StatsPage.info_name
             (StatsPage.getPatternInfo (inhaleTime st') (holdTime st')
                (exhaleTime st')) = Controls.name pattern).
Proof.
  split.
  - intros st.
    unfold ControlsView.isCustomPatternActive, ControlsView.activePattern,
      Controls.BREATHING_PATTERNS.
    cbn [existsb find].
    repeat (destruct (ControlsView.matches st _);
            [cbn; split; discriminate|]).
    cbn. split; reflexivity.
  - intros pattern st Hin Hstop st'. subst st'.
    unfold Controls.handlePatternSelect. rewrite Hstop.
    cbn in Hin.
    destruct Hin as [<- | [<- | [<- | [<- | []]]]];
      repeat split; reflexivity.
Qed.

Lemma preset_selection_witness :
  ControlsView.isCustomPatternActive
    (CustomBreathing.handleSubmit
       {| CustomBreathing.inhale := Fin 5; CustomBreathing.hold := Fin 0;
          CustomBreathing.exhale := Fin 5 |} useBreathingStore) = true.
Proof.
  apply (proj1 (@preset_selection
                  {| Number_toString := fun _ => EmptyString;
                     JSON_stringify := fun _ => EmptyString |})).
  reflexivity.
Defined.

(** ** The custom form *)

Lemma parseInt_shape (text : string) (radix : Z) :
  parseInt text radix = NaN
  \/ exists z, parseInt text radix = Fin (inject_Z z).
Proof.
  unfold parseInt.
  destruct (match trim_start (list_ascii_of_string text) with
            | [] => _ | _ :: _ => _ end) as [negative input].
  destruct (negb (radix =? 0)%Z && ((radix <? 2)%Z || (36 <? radix)%Z));
    [now left|].
  destruct (match input with [] => _ | _ :: _ => _ end) as [R input'].
  destruct (leading_digits R input'); [now left|].
  right. eexists. reflexivity.
Qed.

Lemma inject_Z_zero (z : Z) : Qeq_bool (inject_Z z) 0 = (z =? 0)%Z.
Proof.
  destruct (Z.eqb_spec z 0) as [-> | Hne]; [reflexivity|].
  apply Qeq_bool_false. intros Heq.
  apply Hne. unfold Qeq in Heq. cbn in Heq. lia.
Qed.

(** What is typed ends up as a whole number, never zero when the fallback
    is not zero. *)
Lemma typed_value (text : string) (fallback : Z) :
  exists z,
    or_else (parseInt text 0) (Num.of_Z fallback) = Num.of_Z z
    /\ (fallback <> 0%Z -> z <> 0%Z).
Proof.
  destruct (parseInt_shape text 0) as [-> | [z ->]].
  - exists fallback. now split.
  - cbn [or_else]. rewrite inject_Z_zero.
    destruct (Z.eqb_spec z 0) as [-> | Hne].
    + exists fallback. now split.
    + exists z. now split.
Qed.

Lemma clamp_of_Z (lo hi z : Z) :
  (lo <= hi)%Z ->
  Math_max (Num.of_Z lo) (Math_min (Num.of_Z hi) (Num.of_Z z))
  = Num.of_Z (Z.max lo (Z.min hi z)).
Proof.
  intros Hlohi. unfold Num.of_Z. rewrite Math_min_Fin.
  cbn [Math_max Num.lt].
  destruct (Num.Qltb (inject_Z z) (inject_Z hi)) eqn:E1.
  - apply Qltb_lt in E1. rewrite <- Zlt_Qlt in E1.
    rewrite (Z.min_r hi z) by lia.
    destruct (Num.Qltb (inject_Z lo) (inject_Z z)) eqn:E2.
    + apply Qltb_lt in E2. rewrite <- Zlt_Qlt in E2.
      now rewrite Z.max_r by lia.
    + apply Qltb_ge in E2. rewrite <- Zle_Qle in E2.
      now rewrite Z.max_l by lia.
  - apply Qltb_ge in E1. rewrite <- Zle_Qle in E1.
    rewrite (Z.min_l hi z) by lia.
    destruct (Num.Qltb (inject_Z lo) (inject_Z hi)) eqn:E2.
    + apply Qltb_lt in E2. rewrite <- Zlt_Qlt in E2.
      now rewrite Z.max_r by lia.
    + apply Qltb_ge in E2. rewrite <- Zle_Qle in E2.
      now rewrite Z.max_l by lia.
Qed.

Lemma strict_eq_of_Z (a b : Z) :
  (Num.of_Z a === Num.of_Z b)%num = (a =? b)%Z.
Proof.
  cbn. destruct (Z.eqb_spec a b) as [-> | Hne].
  - apply Qeq_bool_true. reflexivity.
  - apply Qeq_bool_false. intros Heq. apply Hne.
    unfold Qeq in Heq. cbn in Heq. lia.
Qed.

(** X12. Whatever texts are typed into the three fields of the custom
    form, each field holds a whole number (never zero for inhale and
    exhale), and submitting in a stopped session stores these numbers
    clamped into 1..10 for inhale and exhale and 0..10 for hold; the form
    shows its pattern as the active one exactly when nothing had to be
    clamped. *)
Theorem typed_pattern_is_clamped (typedIn typedHold typedOut : string)
    (prev : CustomBreathing.CustomPattern) (st : BreathingState) :
  isBreathing st = false ->
  let custom := CustomForm.onExhaleChange typedOut
                  (CustomForm.onHoldChange typedHold
                     (CustomForm.onInhaleChange typedIn prev)) in
  let st' := CustomBreathing.handleSubmit custom st in
  exists a b d : Z,
    CustomBreathing.inhale custom = Num.of_Z a
    /\ CustomBreathing.hold custom = Num.of_Z b
    /\ CustomBreathing.exhale custom = Num.of_Z d
    /\ a <> 0%Z /\ d <> 0%Z
    /\ inhaleTime st' = Num.of_Z (Z.max 1 (Z.min 10 a))
    /\ holdTime st' = Num.of_Z (Z.max 0 (Z.min 10 b))
    /\ exhaleTime st' = Num.of_Z (Z.max 1 (Z.min 10 d))
    /\ (CustomForm.isCustomPatternActive st' custom = true
        <-> (1 <= a <= 10 /\ 0 <= b <= 10 /\ 1 <= d <= 10)%Z).
Proof.
  intros Hstop custom st'.
  destruct (typed_value typedIn 1) as (a & Ha & Ha0).
  destruct (typed_value typedHold 0) as (b & Hb & _).
  destruct (typed_value typedOut 1) as (d & Hd & Hd0).
  exists a, b, d.
  assert (Hi : CustomBreathing.inhale custom = Num.of_Z a) by exact Ha.
  assert (Hh : CustomBreathing.hold custom = Num.of_Z b) by exact Hb.
  assert (He : CustomBreathing.exhale custom = Num.of_Z d) by exact Hd.
  assert (Hst : st' = setBreathingPattern
                        (Num.of_Z (Z.max 1 (Z.min 10 a)))
                        (Num.of_Z (Z.max 0 (Z.min 10 b)))
                        (Num.of_Z (Z.max 1 (Z.min 10 d))) st).
  { subst st'. unfold CustomBreathing.handleSubmit. rewrite Hstop, Hi, Hh, He.
    cbv zeta.
    rewrite <- (clamp_of_Z 1 10 a), <- (clamp_of_Z 0 10 b),
      <- (clamp_of_Z 1 10 d) by lia.
    reflexivity. }
  clearbody st' custom. subst st'.
  repeat (split; [solve [assumption | reflexivity | auto]|]).
  unfold CustomForm.isCustomPatternActive. rewrite Hi, Hh, He.
  cbn [inhaleTime holdTime exhaleTime setBreathingPattern].
  rewrite !strict_eq_of_Z, !andb_true_iff, !Z.eqb_eq. lia.
Qed.

Lemma typed_pattern_is_clamped_witness :
  inhaleTime
    (CustomBreathing.handleSubmit
       (CustomForm.onExhaleChange "abc"
          (CustomForm.onHoldChange "-3"
             (CustomForm.onInhaleChange "25" CustomForm.initial)))
       useBreathingStore) =n= Fin 10.
Proof.
  destruct (typed_pattern_is_clamped "25" "-3" "abc" CustomForm.initial
              useBreathingStore eq_refl)
    as (a & b & d & Ha & _ & _ & _ & _ & Hi & _).
  rewrite Hi. injection Ha as Ha. rewrite <- Ha. reflexivity.
Defined.

(** * Further properties of the statistics and of the stored history *)

(** ** Pages of the history *)

Lemma Qceiling_unique (x : Q) (k : Z) :
  inject_Z k - 1 < x -> x <= inject_Z k -> Qceiling x = k.
Proof.
  intros Hlo Hhi.
  destruct (Qceiling_bounds x) as [H1 H2].
  assert (Hle : (Qceiling x <= k)%Z).
  { rewrite <- (Qceiling_Z k). now apply Qceiling_resp_le. }
  assert (Hge : (k - 1 < Qceiling x)%Z).
  { rewrite Zlt_Qlt. unfold Z.sub.
    rewrite inject_Z_plus, inject_Z_opp. change (inject_Z 1) with 1. lra. }
  lia.
Qed.

Lemma totalPages_div (sessions : list Stats.Session) :
  Stats.totalPages sessions = ((Z.of_nat (length sessions) + 3) / 4)%Z.
Proof.
  unfold Stats.totalPages, Stats.sessionsPerPage.
  set (n := Z.of_nat (length sessions)).
  pose proof (Z.div_mod (n + 3) 4 ltac:(lia)) as Hdm.
  pose proof (Z.mod_pos_bound (n + 3) 4 ltac:(lia)) as Hmod.
  set (q := ((n + 3) / 4)%Z) in *.
  assert (H4q : inject_Z (4 * q) == 4 * inject_Z q)
    by (rewrite inject_Z_mult; reflexivity).
  apply Qceiling_unique.
  - apply Qlt_shift_div_l; [reflexivity|].
    assert (Hz : (4 * q - 4 < n)%Z) by lia.
    rewrite Zlt_Qlt in Hz. unfold Z.sub in Hz.
    rewrite inject_Z_plus, inject_Z_opp, H4q in Hz.
    change (inject_Z 4) with 4 in *. lra.
  - apply Qle_shift_div_r; [reflexivity|].
    assert (Hz : (n <= 4 * q)%Z) by lia.
    rewrite Zle_Qle, H4q in Hz. change (inject_Z 4) with 4. lra.
Qed.

Lemma firstn_min_length {A : Type} (l : list A) (n : nat) :
  firstn (Nat.min n (length l)) l = firstn n l.
Proof.
  destruct (Nat.le_ge_cases n (length l)) as [Hle | Hge].
  - now rewrite Nat.min_l.
  - rewrite Nat.min_r by exact Hge.
    now rewrite !firstn_all2 by lia.
Qed.

(** A page is the next four sessions after those of the pages before. *)
Lemma currentSessions_chunk (sessions : list Stats.Session) (k : nat) :
  Stats.currentSessions sessions (Z.of_nat (S k)) =
    firstn 4 (skipn (4 * k) sessions).
Proof.
  unfold Stats.currentSessions, Stats.endIndex, Stats.startIndex,
    Stats.sessionsPerPage, slice.
  set (len := length sessions).
  replace ((Z.of_nat (S k) - 1) * 4)%Z with (Z.of_nat (4 * k)) by lia.
  destruct (Z.ltb_spec (Z.of_nat (4 * k)) 0) as [Hneg | _]; [lia|].
  destruct (Z.ltb_spec (Z.of_nat (4 * k) + 4) 0) as [Hneg | _]; [lia|].
  destruct (Nat.le_gt_cases len (4 * k)) as [Hout | Hin].
  - rewrite !Z.min_r by lia. rewrite Z.sub_diag, Nat2Z.id.
    rewrite !(skipn_all2 sessions) by (fold len; lia).
    now rewrite !firstn_nil.
  - rewrite (Z.min_l (Z.of_nat (4 * k))) by lia. rewrite Nat2Z.id.
    replace (Z.to_nat (Z.min (Z.of_nat (4 * k) + 4) (Z.of_nat len)
                       - Z.of_nat (4 * k)))
      with (Nat.min 4 (length (skipn (4 * k) sessions))).
    + apply firstn_min_length.
    + rewrite length_skipn. fold len. lia.
Qed.

Lemma chunks_concat {A : Type} (l : list A) (m : nat) :
  concat (map (fun k => firstn 4 (skipn (4 * k) l)) (seq 0 m)) =
    firstn (4 * m) l.
Proof.
  induction m as [|m IH]; [reflexivity|].
  rewrite seq_S, map_app, concat_app, IH. cbn [map concat Nat.add].
  rewrite app_nil_r.
  replace (4 * S m)%nat with (4 * m + 4)%nat by lia.
  apply take_take_drop.
Qed.

(** X13. The pages of the statistics list: read in order from page 1 to the
    last page they give back the whole history, each session once; every
    page from 1 to the last shows between one and four sessions, and four
    unless it is the last; there is no page exactly when the history is
    empty; a page beyond the last is empty; and the two page buttons keep
    the page number between 1 and the last page. *)
Theorem history_pages (sessions : list Stats.Session) :
  let last := Stats.totalPages sessions in
  concat (map (fun k => Stats.currentSessions sessions (Z.of_nat k))
              (seq 1 (Z.to_nat last))) = sessions
  /\ (forall page, (1 <= page <= last)%Z ->
        (1 <= length (Stats.currentSessions sessions page) <= 4)%nat)
  /\ (forall page, (1 <= page < last)%Z ->
        length (Stats.currentSessions sessions page) = 4%nat)
  /\ (last = 0%Z <-> sessions = [])
  /\ (forall page, (last < page)%Z ->
        Stats.currentSessions sessions page = [])
  /\ (forall page, (1 <= page <= last)%Z ->
        (1 <= Stats.previousPage page <= last)%Z
        /\ (1 <= Stats.nextPage sessions page <= last)%Z).
Proof.
  intros last. subst last. rewrite totalPages_div.
  set (len := length sessions).
  set (last := ((Z.of_nat len + 3) / 4)%Z).
  pose proof (Z.div_mod (Z.of_nat len + 3) 4 ltac:(lia)) as Hdm.
  pose proof (Z.mod_pos_bound (Z.of_nat len + 3) 4 ltac:(lia)) as Hmod.
  fold last in Hdm.
  assert (Hpage : forall page, (1 <= page)%Z ->
            Stats.currentSessions sessions page =
              firstn 4 (skipn (4 * Z.to_nat (page - 1)) sessions)).
  { intros page Hp.
    replace page with (Z.of_nat (S (Z.to_nat (page - 1)))) at 1 by lia.
    apply currentSessions_chunk. }
  assert (Hlen : forall page, (1 <= page)%Z ->
            length (Stats.currentSessions sessions page) =
              Nat.min 4 (len - 4 * Z.to_nat (page - 1))).
  { intros page Hp. rewrite (Hpage page Hp).
    now rewrite length_firstn, length_skipn. }
  split; [|split; [|split; [|split; [|split]]]].
  - rewrite <- (seq_shift (Z.to_nat last) 0), map_map.
    erewrite map_ext; [|intros k; apply currentSessions_chunk].
    rewrite chunks_concat. apply firstn_all2. fold len. lia.
  - intros page Hp. rewrite (Hlen page) by lia. lia.
  - intros page Hp. rewrite (Hlen page) by lia. lia.
  - split.
    + intros H0. apply length_zero_iff_nil. fold len. lia.
    + intros ->. reflexivity.
  - intros page Hp.
    apply length_zero_iff_nil. rewrite (Hlen page) by lia. lia.
  - intros page Hp. unfold Stats.previousPage, Stats.nextPage.
    rewrite totalPages_div. fold len. fold last. lia.
Qed.

Lemma history_pages_witness :
  let one := {| Stats.id := "a"; Stats.pattern := "4-4-6";
                Stats.duration := Fin 60; Stats.date := "d";
                Stats.inhaleTime := Fin 4; Stats.holdTime := Fin 4;
                Stats.exhaleTime := Fin 6 |} in
  (1 <= length (Stats.currentSessions (repeat one 6) 2) <= 4)%nat.
Proof.
  intros one.
  destruct (history_pages (repeat one 6)) as (_ & Hlen & _).
  apply Hlen. split; [lia|]. vm_compute. discriminate.
Defined.

(** ** Counting the patterns used *)

Lemma or_zero_count (entry : option number) (c : Z) :
  match entry with
  | Some v => v =n= Num.of_Z c /\ (0 < c)%Z
  | None => c = 0%Z
  end ->
  (Stats.or_zero entry + Fin 1)%num =n= Num.of_Z (c + 1).
Proof.
  destruct entry as [v|]; cbn [Stats.or_zero].
  - intros [Hv Hc]. destruct v as [| |q]; try contradiction.
    cbn [Num.eqv Num.of_Z] in Hv. cbn [or_else].
    rewrite Qeq_bool_false.
    + cbn. rewrite Hv, inject_Z_plus. reflexivity.
    + rewrite Hv. intros H0. unfold Qeq in H0. cbn in H0. lia.
  - intros ->. reflexivity.
Qed.

Section Usage.
Context `{Host}.

Lemma patternUsage_counts (sessions : list Stats.Session) :
  forall (acc : gmap string number) (counted : string -> Z),
    (forall name,
       match acc !! name with
       | Some v => v =n= Num.of_Z (counted name) /\ (0 < counted name)%Z
       | None => counted name = 0%Z
       end) ->
    forall name,
      let total :=
        (counted name
         + Z.of_nat (count_occ string_dec (map Stats.usageName sessions) name))%Z in
      match fold_left
              (fun acc session =>
                 <[Stats.usageName session :=
                     (Stats.or_zero (acc !! Stats.usageName session) + Fin 1)%num]>
                   acc)
              sessions acc !! name with
      | Some v => v =n= Num.of_Z total /\ (0 < total)%Z
      | None => total = 0%Z
      end.
Proof.
  induction sessions as [|session sessions IH]; intros acc counted Hacc name.
  - cbn. specialize (Hacc name). rewrite Z.add_0_r.
    destruct (acc !! name); exact Hacc.
  - cbn [fold_left map count_occ].
    set (p := Stats.usageName session).
    specialize (IH (<[p := (Stats.or_zero (acc !! p) + Fin 1)%num]> acc)
                   (fun n => if string_dec p n then (counted n + 1)%Z
                             else counted n)).
    cbv zeta in IH.
    assert (Hstep : forall n,
              match <[p := (Stats.or_zero (acc !! p) + Fin 1)%num]> acc !! n with
              | Some v =>
                  v =n= Num.of_Z (if string_dec p n then (counted n + 1)%Z
                                  else counted n)
                  /\ (0 < (if string_dec p n then (counted n + 1)%Z
                           else counted n))%Z
              | None =>
                  (if string_dec p n then (counted n + 1)%Z else counted n)
                  = 0%Z
              end).
    { intros n. destruct (string_dec p n) as [<- | Hne].
      - rewrite lookup_insert_eq. split.
        + apply or_zero_count. apply Hacc.
        + specialize (Hacc p). destruct (acc !! p); lia.
      - rewrite lookup_insert_ne by exact Hne. apply Hacc. }
    specialize (IH Hstep name). cbv beta zeta in IH. cbv zeta.
    destruct (string_dec p name) as [Heq | Hne].
    + replace (counted name
               + Z.of_nat (S (count_occ string_dec
                                (map Stats.usageName sessions) name)))%Z
        with (counted name + 1
              + Z.of_nat (count_occ string_dec
                            (map Stats.usageName sessions) name))%Z by lia.
      exact IH.
    + exact IH.
Qed.

End Usage.

(** X14. The pattern-usage chart counts every session once under its
    pattern name: a name has an entry exactly when some session carries it,
    and the entry is the number of those sessions. *)
Theorem patternUsage_is_count `{Host} (sessions : list Stats.Session)
    (name : string) :
  let uses := count_occ string_dec (map Stats.usageName sessions) name in
  match Stats.patternUsage sessions !! name with
  | Some v => v =n= Num.of_Z (Z.of_nat uses) /\ (0 < uses)%nat
  | None => uses = 0%nat
  end.
Proof.
  intros uses. unfold Stats.patternUsage.
  pose proof (patternUsage_counts sessions ∅ (fun _ => 0%Z)) as Hcount.
  cbv zeta in Hcount. specialize (Hcount ltac:(intros n; now rewrite lookup_empty) name).
  fold uses in Hcount. rewrite Z.add_0_l in Hcount.
  destruct (fold_left _ sessions ∅ !! name); [|lia].
  destruct Hcount. split; [assumption | lia].
Qed.

(** ** The total duration *)

Lemma totalDuration_from (sessions : list Stats.Session) :
  forall (ds : list Z) (q : Q),
    map Stats.duration sessions = map Num.of_Z ds ->
    fold_left (fun acc session => (acc + Stats.duration session)%num)
      sessions (Fin q)
    =n= Fin (q + inject_Z (fold_right Z.add 0%Z ds)).
Proof.
  induction sessions as [|session sessions IH]; intros ds q Hds.
  - destruct ds; [|discriminate]. cbn. ring.
  - destruct ds as [|d ds]; [discriminate|].
    cbn [map] in Hds. injection Hds as Hd Hrest.
    cbn [fold_left fold_right]. rewrite Hd. cbn [Num.add Num.of_Z].
    specialize (IH ds (q + inject_Z d) Hrest).
    destruct (fold_left _ sessions _) as [| |r]; try contradiction.
    cbn [Num.eqv] in *. rewrite IH, inject_Z_plus. ring.
Qed.

(** X15. The total time of the statistics page: a session added at the end
    of the history adds its duration to the total and one to the number of
    sessions; when every duration is a whole number of seconds the total is
    exactly their sum; and one session whose duration is not a number makes
    the whole total not a number. *)
Theorem totalDuration_sums (sessions : list Stats.Session) :
  (forall session,
     Stats.totalDuration (sessions ++ [session]) =
       (Stats.totalDuration sessions + Stats.duration session)%num
     /\ Stats.totalSessions (sessions ++ [session]) =
          S (Stats.totalSessions sessions))
  /\ (forall ds,
        map Stats.duration sessions = map Num.of_Z ds ->
        Stats.totalDuration sessions
        =n= Num.of_Z (fold_right Z.add 0%Z ds))
  /\ ((exists session, In session sessions /\ Stats.duration session = NaN) ->
      Stats.totalDuration sessions = NaN).
Proof.
  split; [|split].
  - intros session. unfold Stats.totalDuration, Stats.totalSessions. split.
    + now rewrite fold_left_app.
    + rewrite length_app. cbn. lia.
  - intros ds Hds. unfold Stats.totalDuration.
    pose proof (totalDuration_from sessions ds 0 Hds) as Hsum.
    destruct (fold_left _ sessions _) as [| |r]; try contradiction.
    cbn [Num.eqv Num.of_Z] in *. rewrite Hsum. ring.
  - intros (session & Hin & Hnan). unfold Stats.totalDuration.
    generalize (Fin 0) as acc. revert Hin.
    induction sessions as [|s rest IH]; intros Hin acc; [contradiction|].
    cbn [fold_left]. destruct Hin as [-> | Hin].
    + rewrite Hnan.
      assert (Hacc : (acc + NaN)%num = NaN) by now destruct acc.
      rewrite Hacc. clear. induction rest as [|r rest IH]; [reflexivity|].
      cbn [fold_left]. exact IH.
    + now apply IH.
Qed.

Lemma totalDuration_sums_witness :
  let one := {| Stats.id := "a"; Stats.pattern := "4-4-6";
                Stats.duration := Num.of_Z 75; Stats.date := "d";
                Stats.inhaleTime := Fin 4; Stats.holdTime := Fin 4;
                Stats.exhaleTime := Fin 6 |} in
  Stats.totalDuration [one; one]
  =n= Num.of_Z (fold_right Z.add 0%Z [75; 75]%Z).
Proof.
  intros one.
  apply (proj1 (proj2 (totalDuration_sums [one; one])) [75; 75]%Z).
  reflexivity.
Defined.

(** ** Clearing the history *)

(** X16. Clearing the statistics, once confirmed, removes the stored
    history and nothing else from the storage, empties the list and goes
    back to page 1, whatever was stored, readable or not; loading the
    history afterwards finds no sessions and does not throw.  Without the
    confirmation nothing changes. *)
Theorem clear_stats (localStorage : Storage) (sessions : list Stats.Session)
    (currentPage : Z) :
  let '(cleared, sessions', page') :=
    Stats.handleClearStats true (localStorage, sessions, currentPage) in
  cleared !! "breathing-sessions" = None
  /\ (forall key, key <> "breathing-sessions" ->
        cleared !! key = localStorage !! key)
  /\ sessions' = [] /\ page' = 1%Z
  /\ Stats.totalPages sessions' = 0%Z
  /\ (forall shown, StatsPage.effect cleared shown = Normal shown)
  /\ Stats.handleClearStats false (localStorage, sessions, currentPage) =
       (localStorage, sessions, currentPage).
Proof.
  cbn [Stats.handleClearStats]. repeat split.
  - apply lookup_delete_eq.
  - intros key Hkey. now apply lookup_delete_ne.
  - intros shown. unfold StatsPage.effect. now rewrite lookup_delete_eq.
Qed.

Lemma clear_stats_witness :
  fst (fst (Stats.handleClearStats true
              ({["breathing-sessions" := "{"; "theme" := "dark"]}, [], 3%Z)))
    !! "theme" = Some "dark".
Proof.
  pose proof (clear_stats {["breathing-sessions" := "{"; "theme" := "dark"]}
                [] 3%Z) as Hclear.
  cbn [Stats.handleClearStats] in Hclear. cbn [Stats.handleClearStats fst].
  destruct Hclear as (_ & Hother & _).
  rewrite Hother by discriminate.
  rewrite lookup_insert_ne by discriminate. apply lookup_singleton_eq.
Defined.

(** ** Saving a session at the stop *)

(** X17. Stopping while the stored history is a JSON array writes back that
    array with the new session added at its end, leaves every other key of
    the storage alone and stops the session.  When the stored text is JSON
    but not an array, the handler throws a [TypeError]: nothing is written
    and the session is not stopped. *)
Theorem stop_saves_session `{Host} (uuid date text : string)
    (localStorage : Storage) (st : BreathingState) :
  localStorage !! "breathing-sessions" = Some text -> text <> EmptyString ->
  (forall items,
     JSON_parse text = Normal (JSON.JArray items) ->
     exists saved,
       StartButton.handleStop uuid date localStorage st =
         Normal (saved, stopBreathing st)
       /\ saved !! "breathing-sessions" =
            Some (JSON_stringify
                    (JSON.JArray
                       (items ++ [StartButton.newSession uuid date st])))
       /\ (forall key, key <> "breathing-sessions" ->
             saved !! key = localStorage !! key))
  /\ (forall parsed,
        JSON_parse text = Normal parsed ->
        (forall items, parsed <> JSON.JArray items) ->
        StartButton.handleStop uuid date localStorage st = Throw TypeError).
Proof.
  intros Hstored Hne. unfold StartButton.handleStop.
  rewrite Hstored, (truthy_nonempty text Hne). split.
  - intros items ->. cbn [bind StartButton.push].
    eexists. split; [reflexivity|]. split.
    + apply lookup_insert_eq.
    + intros key Hkey. apply lookup_insert_ne. congruence.
  - intros parsed -> Hnot. cbn [bind].
    destruct parsed; try reflexivity.
    now destruct (Hnot items).
Qed.

Lemma stop_saves_session_witness :
  @StartButton.handleStop
    {| Number_toString := fun _ => EmptyString;
       JSON_stringify := fun _ => EmptyString |}
    "id" "date" {["breathing-sessions" := "{}"]} useBreathingStore
  = Throw TypeError.
Proof.
  refine (proj2 (@stop_saves_session
                   {| Number_toString := fun _ => EmptyString;
                      JSON_stringify := fun _ => EmptyString |}
                   "id" "date" "{}" {["breathing-sessions" := "{}"]}
                   useBreathingStore _ _)
            (JSON.JObject []) _ _).
  - apply lookup_singleton_eq.
  - discriminate.
  - vm_compute. reflexivity.
  - discriminate.
Defined.

(** ** The scrollbar colours *)

Lemma parseInt_two_hex_digits (a b : ascii) (va vb : Z) :
  digit_of 16 a = Some va -> digit_of 16 b = Some vb ->
  parseInt (String a (String b EmptyString)) 16 = Num.of_Z (16 * va + vb)
  /\ (0 <= 16 * va + vb <= 255)%Z.
Proof.
  intros Ha Hb.
  destruct a as [[] [] [] [] [] [] [] []]; vm_compute in Ha;
    try discriminate; injection Ha as <-;
    destruct b as [[] [] [] [] [] [] [] []]; vm_compute in Hb;
    try discriminate; injection Hb as <-;
    vm_compute; (split; [reflexivity | split; discriminate]).
Qed.

(** X18. For a colour written as a hash sign and six hexadecimal digits the
    three channels put into the scrollbar colours are the three bytes of
    the colour, each between 0 and 255; [setTheme] replaces the theme in
    the store, sets the two scrollbar properties and leaves every other
    property of the root element and every other field of the store as
    they were. *)
Theorem scrollbar_channels `{Host} (r1 r2 g1 g2 b1 b2 : ascii)
    (vr1 vr2 vg1 vg2 vb1 vb2 : Z) :
  digit_of 16 r1 = Some vr1 -> digit_of 16 r2 = Some vr2 ->
  digit_of 16 g1 = Some vg1 -> digit_of 16 g2 = Some vg2 ->
  digit_of 16 b1 = Some vb1 -> digit_of 16 b2 = Some vb2 ->
  let primary :=
    String "#" (String r1 (String r2 (String g1 (String g2
      (String b1 (String b2 EmptyString)))))) in
  Scrollbar.channels primary =
    (Num.of_Z (16 * vr1 + vr2), Num.of_Z (16 * vg1 + vg2),
     Num.of_Z (16 * vb1 + vb2))
  /\ (0 <= 16 * vr1 + vr2 <= 255)%Z
  /\ (0 <= 16 * vg1 + vg2 <= 255)%Z
  /\ (0 <= 16 * vb1 + vb2 <= 255)%Z
  /\ (forall secondary background st style,
        let t := {| primary := primary; secondary := secondary;
                    background := background |} in
        let after := Scrollbar.setTheme_full t (st, style) in
        theme (fst after) = t
        /\ inhaleTime (fst after) = inhaleTime st
        /\ holdTime (fst after) = holdTime st
        /\ exhaleTime (fst after) = exhaleTime st
        /\ isBreathing (fst after) = isBreathing st
        /\ currentPhase (fst after) = currentPhase st
        /\ elapsedTime (fst after) = elapsedTime st
        /\ snd after !! "--scrollbar-thumb" =
             Some (Scrollbar.rgba (Scrollbar.channels primary) "0.5")
        /\ snd after !! "--scrollbar-thumb-hover" =
             Some (Scrollbar.rgba (Scrollbar.channels primary) "0.7")
        /\ (forall property,
              property <> "--scrollbar-thumb" ->
              property <> "--scrollbar-thumb-hover" ->
              snd after !! property = style !! property)).
Proof.
  intros Hr1 Hr2 Hg1 Hg2 Hb1 Hb2 primary.
  destruct (parseInt_two_hex_digits r1 r2 vr1 vr2 Hr1 Hr2) as [Hr Hrb].
  destruct (parseInt_two_hex_digits g1 g2 vg1 vg2 Hg1 Hg2) as [Hg Hgb].
  destruct (parseInt_two_hex_digits b1 b2 vb1 vb2 Hb1 Hb2) as [Hb Hbb].
  split; [|split; [exact Hrb|split; [exact Hgb|split; [exact Hbb|]]]].
  - subst primary. unfold Scrollbar.channels.
    cbn [Scrollbar.remove_first Ascii.eqb Bool.eqb substring].
    now rewrite Hr, Hg, Hb.
  - intros secondary background st style t after. subst after.
    unfold Scrollbar.setTheme_full, Scrollbar.updateScrollbarColors.
    cbn [fst snd].
    repeat split.
    + rewrite lookup_insert_ne by discriminate. apply lookup_insert_eq.
    + apply lookup_insert_eq.
    + intros property H1 H2.
      rewrite !lookup_insert_ne by congruence. reflexivity.
Qed.

Lemma scrollbar_channels_witness :
  Scrollbar.channels "#64b5f6" =
    (Num.of_Z (16 * 6 + 4), Num.of_Z (16 * 11 + 5), Num.of_Z (16 * 15 + 6)).
Proof.
  exact (proj1 (@scrollbar_channels
                  {| Number_toString := fun _ => EmptyString;
                     JSON_stringify := fun _ => EmptyString |}
                  "6" "4" "b" "5" "f" "6" 6 4 11 5 15 6
                  eq_refl eq_refl eq_refl eq_refl eq_refl eq_refl)).
Defined.
